(** * NeuroForge retrieval pipeline: chunking, collection, indexing, querying

    A shallow embedding of [vector_store.py] (class [VectorStore]) and
    [query.py] (class [QueryEngine]), and the properties of the pipeline
    they implement.

    Conventions.
    - A Python [str] is a [string]; one [ascii] stands for one character,
      so [String.length] is Python's [len].
    - Python integers are [Z].
    - Python lists are [list]; a [dict] loaded from JSON is an association
      list in the document's key order (keys of a dict are distinct).
    - float32 values are represented by the rationals they denote ([Q]);
      rounding is not modelled.
    - Exceptions are values of [exn]; a call that may raise returns a
      [result].
    - The external capabilities (NLTK's [sent_tokenize], the sentence
      transformer's [encode], [faiss.normalize_L2]) are parameters of the
      development. *)

From Stdlib Require Import ZArith QArith Ascii String List Bool Lia.
From stdpp Require Import base option list strings gmap fin_maps.

Local Open Scope Z_scope.

(** ** Python strings *)

Module PyStr.

(** [str.isspace] on one character (code points below 256). *)
Definition isspace (c : ascii) : bool :=
  let n := N_of_ascii c in
  ((9 <=? n) && (n <=? 13) || (28 <=? n) && (n <=? 32)
   || (n =? 133) || (n =? 160))%N.

(** [s.lstrip()] *)
Fixpoint lstrip (s : string) : string :=
  match s with
  | EmptyString => EmptyString
  | String c r => if isspace c then lstrip r else s
  end.

(** [s.rstrip()] *)
Fixpoint rstrip (s : string) : string :=
  match s with
  | EmptyString => EmptyString
  | String c r =>
      match rstrip r with
      | EmptyString => if isspace c then EmptyString else String c EmptyString
      | r' => String c r'
      end
  end.

(** [s.strip()] *)
Definition strip (s : string) : string := rstrip (lstrip s).

(** [len(s)] *)
Definition len (s : string) : Z := Z.of_nat (String.length s).

(** The loop of [s.split()]: [cur] is the word being read, if any. *)
Fixpoint split_from (cur : option string) (s : string) : list string :=
  match s with
  | EmptyString => match cur with Some w => [w] | None => [] end
  | String c r =>
      if isspace c
      then match cur with
           | Some w => w :: split_from None r
           | None => split_from None r
           end
      else split_from (Some (match cur with
                             | Some w => String.append w (String c EmptyString)
                             | None => String c EmptyString
                             end)) r
  end.

(** [s.split()]: the maximal runs of non-whitespace characters. *)
Definition split (s : string) : list string := split_from None s.

(** [sep.join(l)] *)
Fixpoint join (sep : string) (l : list string) : string :=
  match l with
  | [] => EmptyString
  | [x] => x
  | x :: r => String.append x (String.append sep (join sep r))
  end.

(** The truth value of a string: [not s] is [s == ""]. *)
Definition truthy (s : string) : bool :=
  match s with EmptyString => false | _ => true end.

End PyStr.

(** ** Python lists *)

Module PyList.

(** [l[start:]] for an integer [start] of either sign. *)
Definition slice_from {A} (start : Z) (l : list A) : list A :=
  let n := Z.of_nat (length l) in
  let s := if start <? 0 then Z.max (start + n) 0 else Z.min start n in
  drop (Z.to_nat s) l.

Definition is_empty {A} (l : list A) : bool :=
  match l with [] => true | _ => false end.

(** [sum(l)] *)
Definition sum (l : list Z) : Z := fold_right Z.add 0 l.

End PyList.

(** ** TextChunker: [VectorStore.chunk_text] *)

Section Chunker.

(** NLTK's [sent_tokenize]. *)
Variable sent_tokenize : string -> list string.

(** [len(sentence.split())] *)
Definition word_count (s : string) : Z :=
  Z.of_nat (length (PyStr.split s)).

(** The loop state: [chunks], [current_chunk_sentences],
    [current_word_count]. *)
Record chunk_state := ChunkState {
  chunks : list string;
  current_chunk_sentences : list string;
  current_word_count : Z
}.

(** What the [if] in the loop body does when it fires: emit the current
    chunk and start the next one from the slice
    [current_chunk_sentences[-overlap_sentences:]]. *)
Definition chunk_emit (overlap_sentences : Z) (st : chunk_state) : chunk_state :=
  let carried :=
    PyList.slice_from (- overlap_sentences) (current_chunk_sentences st) in
  {| chunks := chunks st ++ [PyStr.join " "%string (current_chunk_sentences st)];
     current_chunk_sentences := carried;
     current_word_count := word_count (PyStr.join " "%string carried) |}.

(** One iteration of [for i, sentence in enumerate(sentences)]. *)
Definition chunk_step (chunk_size overlap_sentences : Z)
    (st : chunk_state) (sentence : string) : chunk_state :=
  let sentence_word_count := word_count sentence in
  let st1 :=
    if (current_word_count st + sentence_word_count >? chunk_size)
       && negb (PyList.is_empty (current_chunk_sentences st))
    then chunk_emit overlap_sentences st
    else st in
  {| chunks := chunks st1;
     current_chunk_sentences := current_chunk_sentences st1 ++ [sentence];
     current_word_count := current_word_count st1 + sentence_word_count |}.

Definition chunk_init : chunk_state :=
  {| chunks := []; current_chunk_sentences := []; current_word_count := 0 |}.

(** The whole loop over the sentences. *)
Definition chunk_loop (chunk_size overlap_sentences : Z)
    (sentences : list string) (st : chunk_state) : chunk_state :=
  fold_left (chunk_step chunk_size overlap_sentences) sentences st.

(** "Add the last remaining chunk". *)
Definition chunk_finish (st : chunk_state) : list string :=
  if PyList.is_empty (current_chunk_sentences st)
  then chunks st
  else chunks st ++ [PyStr.join " "%string (current_chunk_sentences st)].

(** [chunk_text(text, chunk_size, overlap_sentences)] *)
Definition chunk_text (text : string) (chunk_size overlap_sentences : Z)
    : list string :=
  if negb (PyStr.truthy text) then []
  else chunk_finish
         (chunk_loop chunk_size overlap_sentences (sent_tokenize text)
            chunk_init).

End Chunker.

(** ** Exceptions *)

(** The exceptions the modelled code can raise: [assert] failures in the
    index wrapper, and [list] indexing out of range. *)
Inductive exn := AssertionError | IndexError.

Inductive result (A : Type) :=
| Return (a : A)
| Raise (e : exn).
Arguments Return {A} a.
Arguments Raise {A} e.

#[global] Instance result_ret : MRet result := fun A a => Return a.
#[global] Instance result_bind : MBind result := fun A B f m =>
  match m with
  | Return a => f a
  | Raise e => Raise e
  end.

Definition returns {A} (m : result A) : bool :=
  match m with Return _ => true | Raise _ => false end.

Module PyIdx.

(** [len(l)] *)
Definition len {A} (l : list A) : Z := Z.of_nat (length l).

(** [l[i]]: a negative [i] counts from the end; out of range raises
    [IndexError]. *)
Definition getitem {A} (l : list A) (i : Z) : result A :=
  let j := if i <? 0 then i + len l else i in
  if j <? 0 then Raise IndexError
  else match l !! Z.to_nat j with
       | Some x => Return x
       | None => Raise IndexError
       end.

(** [enumerate(l)] *)
Definition enumerate {A} (l : list A) : list (Z * A) :=
  imap (fun i x => (Z.of_nat i, x)) l.

End PyIdx.

(** ** Documents: the values [json.load] produces *)

#[local] Set Warnings "-register-all".
Inductive json :=
| JNull
| JBool (b : bool)
| JNum (n : Z)
| JStr (s : string)
| JArr (items : list json)
| JObj (fields : list (string * json)).

Module Json.

(** The truth value of a loaded value, which is what [or] tests. *)
Definition truthy (v : json) : bool :=
  match v with
  | JNull => false
  | JBool b => b
  | JNum n => negb (n =? 0)
  | JStr s => PyStr.truthy s
  | JArr items => negb (PyList.is_empty items)
  | JObj fields => negb (PyList.is_empty fields)
  end.

(** [a or b] *)
Definition or (a b : json) : json := if truthy a then a else b.

(** [d[key]] when the key is there. *)
Fixpoint lookup (fields : list (string * json)) (key : string) : option json :=
  match fields with
  | [] => None
  | (k, v) :: r => if String.eqb k key then Some v else lookup r key
  end.

(** [d.get(key)]: [None] when the key is missing. *)
Definition get (fields : list (string * json)) (key : string) : json :=
  match lookup fields key with
  | Some v => v
  | None => JNull
  end.

End Json.

(** ** StructuralTextCollector: [VectorStore._extract_texts] *)

Fixpoint _extract_texts (obj : json) : list string :=
  match obj with
  | JObj fields =>
      flat_map (fun kv : string * json =>
                  let (k, v) := kv in
                  match v with
                  | JStr s =>
                      if 40 <=? PyStr.len (PyStr.strip s)
                      then [PyStr.strip s] else []
                  | _ => _extract_texts v
                  end) fields
  | JArr items => flat_map _extract_texts items
  | _ => []
  end.

(** ** MetadataStore records *)

Record MetadataRecord := {
  url : json;
  chunk_id : Z;
  total_chunks : Z;
  text_length : Z;
  text : string
}.

(** ** VectorIndex: [faiss.IndexFlatIP] *)

Module IndexFlatIP.

Record t := {
  d : Z;
  xb : list (list Q)
}.

(** [faiss.IndexFlatIP(dimension)] *)
Definition new (dimension : Z) : t := {| d := dimension; xb := [] |}.

Definition ntotal (i : t) : Z := PyIdx.len (xb i).

(** [index.add(embeddings)]: rows are appended in input order. *)
Definition add (i : t) (embeddings : list (list Q)) : t :=
  {| d := d i; xb := xb i ++ embeddings |}.

Fixpoint inner_product (x y : list Q) : Q :=
  match x, y with
  | a :: x', b :: y' => (a * b + inner_product x' y')%Q
  | _, _ => 0%Q
  end.

(** The score of "no result": the lowest float32, [-FLT_MAX]. *)
Definition NEG_FLT_MAX : Q :=
  Qmake (-340282346638528859811704183484516925440) 1.

(** [a] is returned before [b]: higher score, then smaller row id. (The
    library promises no order among rows of equal score; nothing below
    depends on it.) *)
Definition ranks_before (a b : Q * Z) : bool :=
  negb (Qle_bool (fst a) (fst b))
  || Qeq_bool (fst a) (fst b) && (snd a <? snd b).

Fixpoint insert_ranked (a : Q * Z) (l : list (Q * Z)) : list (Q * Z) :=
  match l with
  | [] => [a]
  | b :: r => if ranks_before a b then a :: l else b :: insert_ranked a r
  end.

Definition rank_all (l : list (Q * Z)) : list (Q * Z) :=
  fold_right insert_ranked [] l.

(** The score of every stored row against the query, with its row id. *)
Definition scored (i : t) (x : list Q) : list (Q * Z) :=
  imap (fun n row => (inner_product x row, Z.of_nat n)) (xb i).

(** [index.search(x, k)] for one query vector: the [(score, row id)]
    pairs of the result arrays [scores[0]] and [indices[0]]. The arrays
    always have [k] entries: the best [min k ntotal] rows, best first,
    and then entries with row id [-1] and score [-FLT_MAX] for the
    results that do not exist. The wrapper asserts that the query has the
    index's dimension and that [k > 0]. (For a [k] so large that the
    result arrays cannot be allocated the wrapper raises instead; no
    statement below takes [k] beyond the stored rows except at a small
    concrete value.) *)
Definition search (i : t) (x : list Q) (k : Z) : result (list (Q * Z)) :=
  if negb (PyIdx.len x =? d i) then Raise AssertionError
  else if negb (k >? 0) then Raise AssertionError
  else
    let found := take (Z.to_nat k) (rank_all (scored i x)) in
    Return (found ++ replicate (Z.to_nat k - length found)%nat (NEG_FLT_MAX, -1)).

End IndexFlatIP.

(** ** Persistence: the files on disk *)

(** A file written by [faiss.write_index] or by [pickle.dump] is
    represented by the value it decodes to; reading a file of the other
    kind, or a missing file, raises in the reader. *)
Inductive file :=
| FaissFile (i : IndexFlatIP.t)
| PickleFile (m : list MetadataRecord).

(** ** The build side: class [VectorStore] *)

Module VectorStore.

Record t := {
  index : option IndexFlatIP.t;
  texts : list string;
  metadata : list MetadataRecord
}.

(** [VectorStore()] *)
Definition init : t := {| index := None; texts := []; metadata := [] |}.

(** [doc.get('url') or doc.get('source_url') or 'Unknown URL'] *)
Definition source_identifier (doc : list (string * json)) : json :=
  Json.or (Json.or (Json.get doc "url") (Json.get doc "source_url"))
          (JStr "Unknown URL").

(** The body of [for i, chunk in enumerate(chunks)]. *)
Definition append_chunk (u : json) (total : Z) (vs : t) (ic : Z * string) : t :=
  let (i, chunk) := ic in
  {| index := index vs;
     texts := texts vs ++ [chunk];
     metadata := metadata vs ++
       [ {| url := u;
            chunk_id := i;
            total_chunks := total;
            text_length := PyStr.len chunk;
            text := chunk |} ] |}.

Section Build.

Variable sent_tokenize : string -> list string.
(** [self.model.encode]: one vector per text. *)
Variable embed : string -> list Q.
(** [faiss.normalize_L2], on one row. *)
Variable normalize_L2 : list Q -> list Q.

(** The body of [for raw_text in doc_texts]; [chunk_text] is called with
    its default [overlap_sentences=2]. *)
Definition process_text (u : json) (chunk_size : Z) (vs : t) (raw_text : string) : t :=
  let chunks := chunk_text sent_tokenize raw_text chunk_size 2 in
  fold_left (append_chunk u (PyIdx.len chunks)) (PyIdx.enumerate chunks) vs.

(** The body of [for doc in data]. *)
Definition process_doc (chunk_size : Z) (vs : t) (doc : list (string * json)) : t :=
  let u := source_identifier doc in
  let doc_texts := _extract_texts (JObj doc) in
  fold_left (process_text u chunk_size) doc_texts vs.

(** [process_data(data, chunk_size)] *)
Definition process_data (vs : t) (data : list (list (string * json)))
    (chunk_size : Z) : t :=
  fold_left (process_doc chunk_size) data vs.

(** [create_index()] *)
Definition create_index (vs : t) : t :=
  if PyList.is_empty (texts vs) then vs
  else
    let embeddings := map embed (texts vs) in
    let dimension :=
      match embeddings with
      | e :: _ => PyIdx.len e
      | [] => 0
      end in
    let idx := IndexFlatIP.new dimension in
    let embeddings := map normalize_L2 embeddings in
    {| index := Some (IndexFlatIP.add idx embeddings);
       texts := texts vs;
       metadata := metadata vs |}.

(** [save_index(index_path, metadata_path)] *)
Definition save_index (vs : t) (fs : gmap string file)
    (index_path metadata_path : string) : gmap string file :=
  match index vs with
  | None => fs
  | Some i =>
      <[metadata_path := PickleFile (metadata vs)]>
        (<[index_path := FaissFile i]> fs)
  end.

(** [build_from_json_files], from the documents [load_json_files]
    returned; [process_data] and [save_index] run with their defaults. *)
Definition build_from_json_files (vs : t) (data : list (list (string * json)))
    (fs : gmap string file) : t * gmap string file :=
  if PyList.is_empty data then (vs, fs)
  else
    let vs := process_data vs data 500 in
    let vs := create_index vs in
    (vs, save_index vs fs "faiss_index" "metadata.pkl").

End Build.

End VectorStore.

(** ** The query side: class [QueryEngine] *)

Module QueryEngine.

Record t := {
  index : option IndexFlatIP.t;
  metadata : list MetadataRecord
}.

(** [QueryEngine()] *)
Definition init : t := {| index := None; metadata := [] |}.

(** [load_index(index_path, metadata_path)]: the engine afterwards and
    the returned flag. An exception in either read is caught and gives
    [False]; the index read before a failing metadata read stays
    assigned. *)
Definition load_index (qe : t) (fs : gmap string file)
    (index_path metadata_path : string) : t * bool :=
  match fs !! index_path with
  | Some (FaissFile i) =>
      match fs !! metadata_path with
      | Some (PickleFile m) => ({| index := Some i; metadata := m |}, true)
      | _ => ({| index := Some i; metadata := metadata qe |}, false)
      end
  | _ => (qe, false)
  end.

(** One entry of the list [search] returns. [text_chunk] holds the three
    values the format string interpolates: [chunk_id + 1],
    [total_chunks] and [url]. *)
Record Result := {
  rank : Z;
  score : Q;
  result_metadata : MetadataRecord;
  result_text : string;
  text_chunk : Z * Z * json
}.

(** The body of [for i, (score, idx) in enumerate(zip(scores[0],
    indices[0]))]. *)
Definition search_row (md : list MetadataRecord) (results : list Result)
    (row : Z * (Q * Z)) : result (list Result) :=
  let '(i, (s, idx)) := row in
  if idx <? PyIdx.len md then
    m ← PyIdx.getitem md idx;
    mret (results ++
      [ {| rank := i + 1;
           score := s;
           result_metadata := m;
           result_text := text m;
           text_chunk := (chunk_id m + 1, total_chunks m, url m) |} ])
  else mret results.

Fixpoint search_loop (md : list MetadataRecord) (rows : list (Z * (Q * Z)))
    (results : list Result) : result (list Result) :=
  match rows with
  | [] => mret results
  | row :: rest =>
      results' ← search_row md results row;
      search_loop md rest results'
  end.

(** The result loop of [search], from the arrays the index returned. *)
Definition search_rows (md : list MetadataRecord) (raw : list (Q * Z))
    : result (list Result) :=
  search_loop md (PyIdx.enumerate raw) [].

Section Query.

Variable embed : string -> list Q.
Variable normalize_L2 : list Q -> list Q.

(** [search(query, top_k)] *)
Definition search (qe : t) (query : string) (top_k : Z) : result (list Result) :=
  match index qe with
  | None => mret []
  | Some idx =>
      let query_embedding := normalize_L2 (embed query) in
      raw ← IndexFlatIP.search idx query_embedding top_k;
      search_rows (metadata qe) raw
  end.

End Query.

End QueryEngine.

(** ** Stand-ins for the external capabilities

    Concrete functions to run the model on concrete inputs. The theorems
    below hold for every sentence splitter, encoder and normalizer; these
    are used only where a statement is evaluated at an input. *)

Module Sample.

Definition is_terminator (c : ascii) : bool :=
  let n := N_of_ascii c in ((n =? 46) || (n =? 33) || (n =? 63))%N.

Definition snoc (s : string) (c : ascii) : string :=
  String.append s (String c EmptyString).

(** A sentence ends with [.], [!] or [?] followed by whitespace or by the
    end of the text; whitespace around sentences is dropped, and a text
    of whitespace only has no sentence. *)
Fixpoint sentences_from (cur : string) (s : string) : list string :=
  match s with
  | EmptyString =>
      match PyStr.rstrip cur with
      | EmptyString => []
      | last => [last]
      end
  | String c r =>
      if negb (PyStr.truthy cur) && PyStr.isspace c then sentences_from cur r
      else if is_terminator c
              && match r with
                 | EmptyString => true
                 | String c' _ => PyStr.isspace c'
                 end
           then snoc cur c :: sentences_from EmptyString r
           else sentences_from (snoc cur c) r
  end.

Definition sent_tokenize (text : string) : list string :=
  sentences_from EmptyString text.

(** An encoder into two dimensions: texts of even length go to the first
    axis, the others to the second. *)
Definition embed (s : string) : list Q :=
  if Nat.even (String.length s) then [1%Q; 0%Q] else [0%Q; 1%Q].

Definition is_square (z : Z) : bool := Z.sqrt z * Z.sqrt z =? z.

(** Division of a row by its Euclidean norm, where that norm is rational;
    the zero vector and the rows of irrational norm are left as they
    are. *)
Definition normalize_L2 (v : list Q) : list Q :=
  let n2 := Qred (fold_right (fun a acc => (a * a + acc)%Q) 0%Q v) in
  let num := Qnum n2 in
  let den := Zpos (Qden n2) in
  if (0 <? num) && is_square num && is_square den
  then map (fun a => Qred (a * Qmake (Z.sqrt den) (Z.to_pos (Z.sqrt num)))%Q) v
  else v.

(** Sample data. *)

Definition fox : string :=
  "The quick brown fox jumps over the lazy dog again.".

Definition record0 : MetadataRecord :=
  {| url := JStr "https://x";
     chunk_id := 0;
     total_chunks := 1;
     text_length := 50;
     text := fox |}.

Definition one_row : IndexFlatIP.t :=
  {| IndexFlatIP.d := 2; IndexFlatIP.xb := [[1%Q; 0%Q]] |}.

Definition two_rows : IndexFlatIP.t :=
  {| IndexFlatIP.d := 2; IndexFlatIP.xb := [[1%Q; 0%Q]; [0%Q; 1%Q]] |}.

(** An engine whose index has one row more than it has metadata. *)
Definition mismatched_engine : QueryEngine.t :=
  {| QueryEngine.index := Some two_rows; QueryEngine.metadata := [record0] |}.

(** The same pair as files on disk. *)
Definition mismatched_files : gmap string file :=
  <["metadata.pkl"%string := PickleFile [record0]]>
    (<["faiss_index"%string := FaissFile two_rows]> ∅).

(** An engine over one row and its one record. *)
Definition one_row_engine : QueryEngine.t :=
  {| QueryEngine.index := Some one_row; QueryEngine.metadata := [record0] |}.

(** An engine over an index without rows. *)
Definition empty_engine : QueryEngine.t :=
  {| QueryEngine.index := Some (IndexFlatIP.new 2);
     QueryEngine.metadata := [] |}.

(** A document with five texts of one chunk each. *)
Definition five_texts_doc : list (string * json) :=
  [ ("url"%string, JStr "https://x");
    ("t1"%string, JStr "Alpha text about the quick brown fox and the dog");
    ("t2"%string, JStr "Bravo text about the quick brown fox and the dogs");
    ("t3"%string, JStr "Charlie text about the quick brown fox and the dog");
    ("t4"%string, JStr "Delta text about the quick brown fox and the dogs");
    ("t5"%string, JStr "Echo text about the quick brown foxes and the dog") ].

End Sample.

(** ** Specification-side definitions *)

(** The records [process_data] appends for the chunks of one text. *)
Definition chunk_records (u : json) (chunks : list string) : list MetadataRecord :=
  map (fun ic : Z * string =>
         {| url := u;
            chunk_id := fst ic;
            total_chunks := PyIdx.len chunks;
            text_length := PyStr.len (snd ic);
            text := snd ic |})
      (PyIdx.enumerate chunks).

(** The chunks of one document, text after text. *)
Definition doc_chunks (tok : string -> list string) (chunk_size : Z)
    (doc : list (string * json)) : list string :=
  flat_map (fun raw_text => chunk_text tok raw_text chunk_size 2)
           (_extract_texts (JObj doc)).

(** The records of one document, all carrying the source identifier
    [u]. *)
Definition doc_records (tok : string -> list string) (chunk_size : Z)
    (u : json) (doc : list (string * json)) : list MetadataRecord :=
  flat_map (fun raw_text =>
              chunk_records u (chunk_text tok raw_text chunk_size 2))
           (_extract_texts (JObj doc)).

(** A store with further texts and records appended in lockstep. *)
Definition extend (vs : VectorStore.t) (ts : list string)
    (ms : list MetadataRecord) : VectorStore.t :=
  {| VectorStore.index := VectorStore.index vs;
     VectorStore.texts := VectorStore.texts vs ++ ts;
     VectorStore.metadata := VectorStore.metadata vs ++ ms |}.

(** The value of a top-level field that is there and is not empty: not
    [null], [false], zero, or an empty string, array or object. *)
Definition present_nonempty (doc : list (string * json)) (key : string)
    : option json :=
  match Json.lookup doc key with
  | Some v => if Json.truthy v then Some v else None
  | None => None
  end.

(** The provenance of a document in words: its ['url'] if present and
    non-empty, otherwise its ['source_url'] if present and non-empty,
    otherwise the literal ['Unknown URL']. *)
Definition provenance (doc : list (string * json)) : json :=
  match present_nonempty doc "url" with
  | Some v => v
  | None =>
      match present_nonempty doc "source_url" with
      | Some v => v
      | None => JStr "Unknown URL"
      end
  end.

(** The last [n] elements of a list, all of them if there are fewer. *)
Definition last_n {A} (n : nat) (l : list A) : list A :=
  drop (length l - n) l.

(** Rows of a raw search result with their 1-based position. *)
Definition ranked_rows (raw : list (Q * Z)) : list (Z * (Q * Z)) :=
  map (fun r : Z * (Q * Z) => (fst r + 1, snd r)) (PyIdx.enumerate raw).

(** The number of rows of the index a store or an engine holds; without
    an index there are none. *)
Definition ntotal_of (index : option IndexFlatIP.t) : Z :=
  match index with
  | Some i => IndexFlatIP.ntotal i
  | None => 0
  end.

(** The alignment contract on the build side: the texts and the records
    were appended in lockstep, and the index has one row per record. *)
Definition store_aligned (vs : VectorStore.t) : Prop :=
  length (VectorStore.texts vs) = length (VectorStore.metadata vs)
  /\ PyIdx.len (VectorStore.metadata vs) = ntotal_of (VectorStore.index vs).

(** The alignment contract on the query side. *)
Definition engine_aligned (qe : QueryEngine.t) : Prop :=
  PyIdx.len (QueryEngine.metadata qe) = ntotal_of (QueryEngine.index qe).

(** What a result says about the row it came from. *)
Definition summary (r : QueryEngine.Result) : Z * Q * MetadataRecord :=
  (QueryEngine.rank r, QueryEngine.score r, QueryEngine.result_metadata r).

(** A ranked row with the record at its row id, if there is one. *)
Definition resolved (md : list MetadataRecord) (r : Z * (Q * Z))
    : option (Z * Q * MetadataRecord) :=
  (fun m => (fst r, fst (snd r), m)) <$> md !! Z.to_nat (snd (snd r)).

(** ** Runs of sentences

    A chunk is the join of a run of sentences; the definitions below speak
    about the runs behind the chunks. *)

(** The number of words of a list of sentences. *)
Definition words (l : list string) : Z := PyList.sum (map word_count l).

(** A non-empty contiguous part of [all]. *)
Definition is_run (r all : list string) : Prop :=
  r <> [] /\ exists pre post, all = pre ++ r ++ post.

(** The sentences a run hands to its successor:
    [current_chunk_sentences[-overlap_sentences:]]. *)
Definition carried (overlap_sentences : Z) (r : list string) : list string :=
  PyList.slice_from (- overlap_sentences) r.

(** [r] follows [prev]: it is what [prev] hands over, followed by at
    least one new sentence, and it stays within the budget unless it has
    exactly one new sentence. *)
Definition follows (chunk_size overlap_sentences : Z)
    (prev : option (list string)) (r : list string) : Prop :=
  exists fresh,
    fresh <> []
    /\ r = match prev with
           | Some p => carried overlap_sentences p
           | None => []
           end ++ fresh
    /\ (words r <= chunk_size \/ length fresh = 1%nat).

(** Every run follows the one before it. *)
Fixpoint chain (chunk_size overlap_sentences : Z)
    (prev : option (list string)) (runs : list (list string)) : Prop :=
  match runs with
  | [] => True
  | r :: rest =>
      follows chunk_size overlap_sentences prev r
      /\ chain chunk_size overlap_sentences (Some r) rest
  end.

(** The last run, or [prev] if there is none. *)
Definition last_run (prev : option (list string)) (runs : list (list string))
    : option (list string) :=
  match last runs with
  | Some r => Some r
  | None => prev
  end.

(** What the chunking loop keeps true, for the sentences [processed] so
    far and the runs [runs] behind the chunks emitted so far. *)
Record chunk_inv (chunk_size overlap_sentences : Z)
    (processed : list string) (st : chunk_state)
    (runs : list (list string)) : Prop := {
  inv_chunks : chunks st = map (PyStr.join " ") runs;
  inv_runs : Forall (fun r => is_run r processed) runs;
  inv_suffix : exists pre, processed = pre ++ current_chunk_sentences st;
  inv_cover : forall s, In s processed ->
                In s (current_chunk_sentences st)
                \/ exists r, In r runs /\ In s r;
  inv_first : match runs with
              | [] => current_chunk_sentences st = processed
              | r :: _ => exists post, processed = r ++ post
              end;
  inv_count : current_word_count st = words (current_chunk_sentences st);
  inv_chain : chain chunk_size overlap_sentences None runs;
  inv_current : (current_chunk_sentences st = [] /\ runs = [])
                \/ follows chunk_size overlap_sentences (last_run None runs)
                     (current_chunk_sentences st)
}.

(** One if there are sentences waiting to be emitted, zero if not. *)
Definition pending (st : chunk_state) : nat :=
  if PyList.is_empty (current_chunk_sentences st) then 0%nat else 1%nat.

(** ** Documents of any shape

    [json.load] may return any value, not only a dict. *)

Inductive attribute_error := AttributeError.

(** [process_data] over the values [load_json_files] returns. The loop
    body starts with [doc.get('url')], which exists only on a dict: on
    any other value it raises [AttributeError], and what was appended for
    the documents before it stays in the store. *)
Fixpoint process_loaded_data (tok : string -> list string)
    (vs : VectorStore.t) (data : list json) (chunk_size : Z)
    : VectorStore.t * option attribute_error :=
  match data with
  | [] => (vs, None)
  | JObj doc :: rest =>
      process_loaded_data tok
        (VectorStore.process_doc tok chunk_size vs doc) rest chunk_size
  | _ :: _ => (vs, Some AttributeError)
  end.

(** ** The interactive loop: [QueryEngine.interactive_mode] *)

Module Interactive.

(** [c.lower()] on one character (code points below 256). *)
Definition lower_char (c : ascii) : ascii :=
  let n := N_of_ascii c in
  if ((65 <=? n) && (n <=? 90)
      || (192 <=? n) && (n <=? 222) && negb (n =? 215))%N
  then ascii_of_N (n + 32)
  else c.

(** [s.lower()] *)
Fixpoint lower (s : string) : string :=
  match s with
  | EmptyString => EmptyString
  | String c r => String (lower_char c) (lower r)
  end.

(** [query.lower() in ['quit', 'exit', 'q']] *)
Definition is_exit (query : string) : bool :=
  existsb (String.eqb (lower query)) ["quit"; "exit"; "q"]%string.

(** What a call of [input()] gives: a line, or [KeyboardInterrupt]; when
    the input has ended, [input()] raises [EOFError]. *)
Inductive input :=
| Line (l : string)
| KeyboardInterrupt.

(** What the loop shows for a query: the results handed to
    [print_results], or the message of a caught exception. *)
Inductive shown :=
| Results (query : string) (results : list QueryEngine.Result)
| Error (e : exn)
| ErrorEOF.

Section Loop.

Variable embed : string -> list Q.
Variable normalize_L2 : list Q -> list Q.

(** [interactive_mode()]: one unit of fuel per iteration of
    [while True]; [None] when the fuel runs out before the loop ends.
    [except Exception] catches what [search] raises and the [EOFError]
    of [input()], and the loop goes on. *)
Fixpoint interactive_mode (fuel : nat) (qe : QueryEngine.t)
    (stdin : list input) (out : list shown) : option (list shown) :=
  match fuel with
  | O => None
  | S fuel =>
      match stdin with
      | [] => interactive_mode fuel qe [] (out ++ [ErrorEOF])
      | KeyboardInterrupt :: _ => Some out
      | Line l :: rest =>
          let query := PyStr.strip l in
          if is_exit query then Some out
          else if negb (PyStr.truthy query)
          then interactive_mode fuel qe rest out
          else
            match QueryEngine.search embed normalize_L2 qe query 5 with
            | Return results =>
                interactive_mode fuel qe rest (out ++ [Results query results])
            | Raise e => interactive_mode fuel qe rest (out ++ [Error e])
            end
      end
  end.

(** What the loop shows for one line that is no exit word. *)
Definition respond (qe : QueryEngine.t) (l : string) : list shown :=
  let query := PyStr.strip l in
  if negb (PyStr.truthy query) then []
  else
    match QueryEngine.search embed normalize_L2 qe query 5 with
    | Return results => [Results query results]
    | Raise e => [Error e]
    end.

End Loop.

End Interactive.

(** ** Further specification-side definitions *)

(** The same document with every key renamed by [f]. *)
Fixpoint rekey (f : string -> string) (v : json) : json :=
  match v with
  | JArr items => JArr (map (rekey f) items)
  | JObj fields =>
      JObj (map (fun kv : string * json =>
                   let (k, x) := kv in (f k, rekey f x)) fields)
  | _ => v
  end.

(** A record as the data model has it: the chunk id counts within the
    chunks of its text, and the stored length is that of the stored
    text. *)
Definition well_formed (m : MetadataRecord) : Prop :=
  0 <= chunk_id m < total_chunks m /\ text_length m = PyStr.len (text m).

(** The record a row id selects in [self.metadata[idx]], for a row id
    not below [-len(metadata)]: a negative id counts from the end. *)
Definition wrapped (md : list MetadataRecord) (idx : Z)
    : option MetadataRecord :=
  if idx <? 0 then md !! Z.to_nat (idx + PyIdx.len md)
  else md !! Z.to_nat idx.

(** The result [search] builds for a row: its derived fields come from
    the record. *)
Definition result_of (rk : Z) (s : Q) (m : MetadataRecord)
    : QueryEngine.Result :=
  {| QueryEngine.rank := rk;
     QueryEngine.score := s;
     QueryEngine.result_metadata := m;
     QueryEngine.result_text := text m;
     QueryEngine.text_chunk := (chunk_id m + 1, total_chunks m, url m) |}.

(** The result for a ranked row, if the row passes the test
    [idx < len(metadata)]. *)
Definition result_wrapped (md : list MetadataRecord) (r : Z * (Q * Z))
    : option QueryEngine.Result :=
  if snd (snd r) <? PyIdx.len md
  then result_of (fst r) (fst (snd r)) <$> wrapped md (snd (snd r))
  else None.

(** The results one row contributes. *)
Definition option_results (o : option QueryEngine.Result)
    : list QueryEngine.Result :=
  match o with Some r => [r] | None => [] end.

(** The ranks [1 .. n]. *)
Definition ranks (n : nat) : list Z :=
  map (fun i => Z.of_nat i + 1) (seq 0 n).

(** * Properties *)

(** ** Strings and lists *)

Lemma split_from_space cur s1 c s2 :
  PyStr.isspace c = true ->
  PyStr.split_from cur (String.append s1 (String c s2)) =
  PyStr.split_from cur s1 ++ PyStr.split_from None s2.
Proof.
  intros Hc. revert cur.
  induction s1 as [|a s1 IH]; intros cur; simpl.
  - rewrite Hc. destruct cur; reflexivity.
  - destruct (PyStr.isspace a).
    + destruct cur; simpl; rewrite IH; reflexivity.
    + apply IH.
Qed.

Lemma word_count_nonneg s : 0 <= word_count s.
Proof. unfold word_count. lia. Qed.

Lemma sum_word_count_nonneg l : 0 <= PyList.sum (map word_count l).
Proof.
  induction l as [|x l IH]; simpl; [lia|].
  pose proof (word_count_nonneg x). lia.
Qed.

(** The word count of the joined sentences is the sum of their word
    counts: joining with a space merges no words. *)
Lemma word_count_join l :
  word_count (PyStr.join " " l) = PyList.sum (map word_count l).
Proof.
  induction l as [|x l IH]; [reflexivity|].
  destruct l as [|y l].
  - simpl. lia.
  - change (PyStr.join " " (x :: y :: l))
      with (String.append x (String " " (PyStr.join " " (y :: l)))).
    unfold word_count at 1. unfold PyStr.split.
    rewrite split_from_space by reflexivity.
    rewrite length_app, Nat2Z.inj_add.
    change (Z.of_nat (length (PyStr.split_from None (PyStr.join " " (y :: l)))))
      with (word_count (PyStr.join " " (y :: l))).
    rewrite IH. reflexivity.
Qed.

Lemma slice_from_neg_pos {A} (n : Z) (l : list A) :
  0 < n -> PyList.slice_from (- n) l = last_n (Z.to_nat n) l.
Proof.
  intros Hn. unfold PyList.slice_from, last_n.
  destruct (Z.ltb_spec (- n) 0) as [_|]; [|lia].
  f_equal. lia.
Qed.

Lemma slice_from_zero {A} (l : list A) : PyList.slice_from (- 0) l = l.
Proof.
  unfold PyList.slice_from. change (- 0) with 0.
  rewrite Z.ltb_irrefl, Z.min_l by lia. reflexivity.
Qed.

(** ** TextChunker *)

Section ChunkerFacts.

Variable tok : string -> list string.
Variables chunk_size overlap_sentences : Z.

(** As long as the budget is not exceeded the loop only accumulates. *)
Lemma chunk_loop_accumulates sentences st :
  current_word_count st + PyList.sum (map word_count sentences) <= chunk_size ->
  chunk_loop chunk_size overlap_sentences sentences st =
  {| chunks := chunks st;
     current_chunk_sentences := current_chunk_sentences st ++ sentences;
     current_word_count :=
       current_word_count st + PyList.sum (map word_count sentences) |}.
Proof.
  unfold chunk_loop. revert st.
  induction sentences as [|s l IH]; intros st H; simpl in *.
  - destruct st; simpl. rewrite app_nil_r, Z.add_0_r. reflexivity.
  - pose proof (sum_word_count_nonneg l) as Hl.
    pose proof (word_count_nonneg s) as Hs.
    rewrite IH.
    + unfold chunk_step.
      destruct (Z.gtb_spec (current_word_count st + word_count s) chunk_size);
        [lia|]. simpl.
      rewrite <- app_assoc. simpl. f_equal. lia.
    + unfold chunk_step.
      destruct (Z.gtb_spec (current_word_count st + word_count s) chunk_size);
        [lia|]. simpl. lia.
Qed.

(** With a positive overlap the emitted chunk hands its last
    [overlap_sentences] sentences to the next one (all of them if it has
    fewer), and the running count restarts from their words. *)
Lemma chunk_emit_overlap_pos st :
  0 < overlap_sentences ->
  chunk_emit overlap_sentences st =
  {| chunks := chunks st ++ [PyStr.join " " (current_chunk_sentences st)];
     current_chunk_sentences :=
       last_n (Z.to_nat overlap_sentences) (current_chunk_sentences st);
     current_word_count :=
       PyList.sum (map word_count
         (last_n (Z.to_nat overlap_sentences) (current_chunk_sentences st))) |}.
Proof.
  intros H. unfold chunk_emit.
  rewrite word_count_join, slice_from_neg_pos by assumption. reflexivity.
Qed.

(** With [overlap_sentences = 0] the slice [current[-0:]] is the whole
    list: nothing is dropped. *)
Lemma chunk_emit_overlap_zero st :
  current_chunk_sentences (chunk_emit 0 st) = current_chunk_sentences st.
Proof. unfold chunk_emit. simpl. apply slice_from_zero. Qed.

End ChunkerFacts.

(** C8, as stated, fails on a text without sentences: a text of one
    blank has total word count 0, within any budget, and yields no chunk
    at all rather than one chunk. *)
Lemma chunk_text_blank_counterexample :
  PyList.sum (map word_count (Sample.sent_tokenize " ")) <= 3 /\
  chunk_text Sample.sent_tokenize " " 3 2 <>
    [PyStr.join " " (Sample.sent_tokenize " ")].
Proof. split; [vm_compute; discriminate | vm_compute; discriminate]. Qed.

(** C8 (amended): for every text that is not empty and has at least one
    sentence, if the total word count of its sentences is at most
    [chunk_size], [chunk_text] returns exactly one chunk, the sentences
    joined with single spaces; the empty text, and a text without
    sentences, give the empty sequence. *)
Theorem chunk_text_within_budget
    (tok : string -> list string) (text : string) (chunk_size overlap : Z) :
  (text <> EmptyString -> tok text <> [] ->
   PyList.sum (map word_count (tok text)) <= chunk_size ->
   chunk_text tok text chunk_size overlap = [PyStr.join " " (tok text)])
  /\ chunk_text tok EmptyString chunk_size overlap = []
  /\ (tok text = [] -> chunk_text tok text chunk_size overlap = []).
Proof.
  split; [|split].
  - intros Htext Htok Hsum. unfold chunk_text.
    destruct text as [|c r]; [congruence|]. simpl.
    rewrite chunk_loop_accumulates by (simpl; lia).
    unfold chunk_finish. simpl.
    destruct (tok (String c r)); [congruence|]. reflexivity.
  - reflexivity.
  - intros Htok. unfold chunk_text. rewrite Htok.
    destruct (PyStr.truthy text); reflexivity.
Qed.

Lemma chunk_text_within_budget_witness :
  chunk_text Sample.sent_tokenize "Cats sleep. Dogs bark." 10 2 =
    ["Cats sleep. Dogs bark."%string].
Proof.
  apply (proj1 (chunk_text_within_budget Sample.sent_tokenize
                  "Cats sleep. Dogs bark." 10 2)).
  - discriminate.
  - vm_compute. discriminate.
  - vm_compute. discriminate.
Defined.

(** C5: with [overlap_sentences = 0] the code carries the whole emitted
    chunk into the next one instead of nothing. Four two-word sentences
    with a budget of five words come out as three growing chunks, where
    the overlap rule asks for two chunks of two sentences each. *)
Theorem chunk_text_overlap_zero_carries_all :
  (forall st,
     current_chunk_sentences (chunk_emit 0 st) = current_chunk_sentences st)
  /\ Sample.sent_tokenize "Cats sleep. Dogs bark. Birds sing. Fish swim." =
       ["Cats sleep."; "Dogs bark."; "Birds sing."; "Fish swim."]%string
  /\ chunk_text Sample.sent_tokenize
       "Cats sleep. Dogs bark. Birds sing. Fish swim." 5 0 =
       ["Cats sleep. Dogs bark.";
        "Cats sleep. Dogs bark. Birds sing.";
        "Cats sleep. Dogs bark. Birds sing. Fish swim."]%string.
Proof.
  split; [exact chunk_emit_overlap_zero|].
  split; vm_compute; reflexivity.
Qed.

(** ** StructuralTextCollector *)

(** A string that is an element of an array is never collected, whatever
    its length: [_extract_texts] looks at strings only as the values of
    an object's keys. *)
Lemma extract_texts_array_of_strings (l : list string) :
  _extract_texts (JArr (map JStr l)) = [].
Proof.
  simpl. induction l as [|s l IH]; [reflexivity|]. simpl. exact IH.
Qed.

(** A string under a key is collected, trimmed, when its trimmed length
    is at least 40, and dropped otherwise. *)
Lemma extract_texts_field (k s : string) :
  _extract_texts (JObj [(k, JStr s)]) =
  if 40 <=? PyStr.len (PyStr.strip s) then [PyStr.strip s] else [].
Proof. simpl. rewrite app_nil_r. reflexivity. Qed.

(** C6: a string leaf of 50 characters inside an array is discarded,
    while the same string directly under a key is emitted. *)
Theorem extract_texts_drops_array_strings :
  (forall texts k, _extract_texts (JObj [(k, JArr (map JStr texts))]) = [])
  /\ PyStr.len (PyStr.strip Sample.fox) = 50
  /\ _extract_texts (JObj [("paragraphs"%string, JArr [JStr Sample.fox])]) = []
  /\ _extract_texts (JObj [("body"%string, JStr Sample.fox)]) = [Sample.fox].
Proof.
  split.
  - intros texts k.
    pose proof (extract_texts_array_of_strings texts) as H.
    simpl in *. rewrite H. reflexivity.
  - repeat split; vm_compute; reflexivity.
Qed.

(** ** The build loop: [process_data] *)

Lemma extend_nil vs : extend vs [] [] = vs.
Proof. destruct vs. unfold extend. simpl. rewrite !app_nil_r. reflexivity. Qed.

Lemma extend_extend vs ts ms ts' ms' :
  extend (extend vs ts ms) ts' ms' = extend vs (ts ++ ts') (ms ++ ms').
Proof. unfold extend. simpl. rewrite !app_assoc. reflexivity. Qed.

(** A loop whose body appends to both lists appends the concatenation of
    what the iterations append. *)
Lemma fold_left_extend {X} (f : VectorStore.t -> X -> VectorStore.t)
    (T : X -> list string) (M : X -> list MetadataRecord) :
  (forall vs x, f vs x = extend vs (T x) (M x)) ->
  forall l vs, fold_left f l vs = extend vs (flat_map T l) (flat_map M l).
Proof.
  intros Hf l. induction l as [|x l IH]; intros vs; simpl.
  - symmetry. apply extend_nil.
  - rewrite IH, Hf, extend_extend. reflexivity.
Qed.

Lemma flat_map_single {X Y} (g : X -> Y) (l : list X) :
  flat_map (fun x => [g x]) l = map g l.
Proof. induction l as [|x l IH]; simpl; [|rewrite IH]; reflexivity. Qed.

Lemma map_snd_imap {X I} (g : nat -> I) (l : list X) :
  map snd (imap (fun i x => (g i, x)) l) = l.
Proof.
  revert g. induction l as [|x l IH]; intros g; simpl; [reflexivity|].
  f_equal. apply (IH (g ∘ S)).
Qed.

Lemma enumerate_snd {X} (l : list X) : map snd (PyIdx.enumerate l) = l.
Proof. apply map_snd_imap. Qed.

Lemma enumerate_length {X} (l : list X) : length (PyIdx.enumerate l) = length l.
Proof. unfold PyIdx.enumerate. apply length_imap. Qed.

Lemma chunk_records_length u chunks :
  length (chunk_records u chunks) = length chunks.
Proof. unfold chunk_records. rewrite length_map. apply enumerate_length. Qed.

Lemma chunk_records_url u chunks :
  Forall (fun m => url m = u) (chunk_records u chunks).
Proof.
  unfold chunk_records. apply List.Forall_forall. intros m Hm.
  apply in_map_iff in Hm. destruct Hm as [ic [<- _]]. reflexivity.
Qed.

Lemma doc_records_url tok chunk_size u doc :
  Forall (fun m => url m = u) (doc_records tok chunk_size u doc).
Proof.
  unfold doc_records. apply List.Forall_forall. intros m Hm.
  apply in_flat_map in Hm. destruct Hm as [raw [_ Hm]].
  pose proof (chunk_records_url u (chunk_text tok raw chunk_size 2)) as H.
  rewrite List.Forall_forall in H. exact (H m Hm).
Qed.

Lemma doc_records_length tok chunk_size u doc :
  length (doc_records tok chunk_size u doc) =
  length (doc_chunks tok chunk_size doc).
Proof.
  unfold doc_records, doc_chunks.
  induction (_extract_texts (JObj doc)) as [|raw l IH]; [reflexivity|].
  cbn [flat_map]. rewrite !length_app, chunk_records_length, IH. reflexivity.
Qed.

Section BuildFacts.

Variable tok : string -> list string.
Variable embed : string -> list Q.
Variable norm : list Q -> list Q.

Lemma process_text_extend u chunk_size vs raw_text :
  VectorStore.process_text tok u chunk_size vs raw_text =
  extend vs (chunk_text tok raw_text chunk_size 2)
            (chunk_records u (chunk_text tok raw_text chunk_size 2)).
Proof.
  unfold VectorStore.process_text.
  set (chunks := chunk_text tok raw_text chunk_size 2).
  rewrite (fold_left_extend _
             (fun ic : Z * string => [snd ic])
             (fun ic : Z * string =>
                [ {| url := u; chunk_id := fst ic;
                     total_chunks := PyIdx.len chunks;
                     text_length := PyStr.len (snd ic);
                     text := snd ic |} ])).
  - rewrite !flat_map_single, enumerate_snd. reflexivity.
  - intros vs' [i chunk]. reflexivity.
Qed.

Lemma process_doc_extend chunk_size vs doc :
  VectorStore.process_doc tok chunk_size vs doc =
  extend vs (doc_chunks tok chunk_size doc)
            (doc_records tok chunk_size (VectorStore.source_identifier doc) doc).
Proof.
  unfold VectorStore.process_doc.
  apply (fold_left_extend _
           (fun raw => chunk_text tok raw chunk_size 2)
           (fun raw => chunk_records (VectorStore.source_identifier doc)
                         (chunk_text tok raw chunk_size 2))).
  intros vs' raw. apply process_text_extend.
Qed.

Lemma process_data_extend chunk_size vs data :
  VectorStore.process_data tok vs data chunk_size =
  extend vs
    (flat_map (doc_chunks tok chunk_size) data)
    (flat_map (fun doc =>
                 doc_records tok chunk_size
                   (VectorStore.source_identifier doc) doc) data).
Proof.
  unfold VectorStore.process_data.
  apply (fold_left_extend _ (doc_chunks tok chunk_size)
           (fun doc => doc_records tok chunk_size
                         (VectorStore.source_identifier doc) doc)).
  intros vs' doc. apply process_doc_extend.
Qed.

(** The chain of [or]s picks the provenance the words describe. *)
Lemma source_identifier_provenance doc :
  VectorStore.source_identifier doc = provenance doc.
Proof.
  unfold VectorStore.source_identifier, provenance, present_nonempty,
    Json.or, Json.get.
  destruct (Json.lookup doc "url") as [v|].
  - destruct (Json.truthy v) eqn:Hv.
    + rewrite Hv. reflexivity.
    + simpl. destruct (Json.lookup doc "source_url") as [w|]; simpl.
      * destruct (Json.truthy w); reflexivity.
      * reflexivity.
  - simpl. destruct (Json.lookup doc "source_url") as [w|]; simpl.
    + destruct (Json.truthy w); reflexivity.
    + reflexivity.
Qed.

End BuildFacts.

(** C10: every record [process_data] appends for a document carries the
    document's provenance: its top-level ['url'] if present and non-empty,
    otherwise its ['source_url'] if present and non-empty, otherwise
    ['Unknown URL']. The records of a document with neither field are
    appended like any others, with ['Unknown URL']. *)
Theorem process_data_provenance
    (tok : string -> list string) (vs : VectorStore.t)
    (data : list (list (string * json))) (chunk_size : Z) :
  VectorStore.metadata (VectorStore.process_data tok vs data chunk_size) =
    VectorStore.metadata vs ++
    flat_map (fun doc => doc_records tok chunk_size (provenance doc) doc) data
  /\ (forall doc,
        Forall (fun m => url m = provenance doc)
               (doc_records tok chunk_size (provenance doc) doc))
  /\ (forall doc,
        Json.lookup doc "url" = None ->
        Json.lookup doc "source_url" = None ->
        provenance doc = JStr "Unknown URL").
Proof.
  split; [|split].
  - rewrite process_data_extend. simpl. f_equal.
    apply flat_map_ext. intros doc.
    rewrite source_identifier_provenance. reflexivity.
  - intros doc. apply doc_records_url.
  - intros doc Hu Hs. unfold provenance, present_nonempty.
    rewrite Hu, Hs. reflexivity.
Qed.

Lemma process_data_provenance_witness :
  provenance
    [("body"%string,
      JStr "The quick brown fox jumps over the lazy dog again.")] =
  JStr "Unknown URL".
Proof.
  apply (proj2 (proj2 (process_data_provenance
                         Sample.sent_tokenize VectorStore.init [] 500))).
  - reflexivity.
  - reflexivity.
Defined.

(** ** Alignment of the index with the metadata *)

Lemma data_records_length tok chunk_size (u : list (string * json) -> json) data :
  length (flat_map (fun doc => doc_records tok chunk_size (u doc) doc) data) =
  length (flat_map (doc_chunks tok chunk_size) data).
Proof.
  induction data as [|doc data IH]; [reflexivity|].
  cbn [flat_map]. rewrite !length_app, doc_records_length, IH. reflexivity.
Qed.

(** [process_data] keeps [texts] and [metadata] of equal length. *)
Lemma process_data_lockstep tok vs data chunk_size :
  length (VectorStore.texts vs) = length (VectorStore.metadata vs) ->
  length (VectorStore.texts (VectorStore.process_data tok vs data chunk_size)) =
  length (VectorStore.metadata (VectorStore.process_data tok vs data chunk_size)).
Proof.
  intros H. rewrite process_data_extend. simpl.
  rewrite !length_app, H.
  rewrite (data_records_length tok chunk_size VectorStore.source_identifier).
  reflexivity.
Qed.

(** [create_index] leaves a store without texts as it is. *)
Lemma create_index_no_texts embed norm vs :
  VectorStore.texts vs = [] -> VectorStore.create_index embed norm vs = vs.
Proof. intros H. unfold VectorStore.create_index. rewrite H. reflexivity. Qed.

(** Otherwise the new index has one row per text. *)
Lemma create_index_ntotal embed norm vs :
  VectorStore.texts vs <> [] ->
  exists i,
    VectorStore.index (VectorStore.create_index embed norm vs) = Some i /\
    IndexFlatIP.ntotal i = PyIdx.len (VectorStore.texts vs) /\
    VectorStore.metadata (VectorStore.create_index embed norm vs) =
      VectorStore.metadata vs.
Proof.
  intros H. unfold VectorStore.create_index.
  destruct (VectorStore.texts vs) as [|t ts] eqn:E; [congruence|].
  cbn [PyList.is_empty]. eexists. split; [reflexivity|]. split; [|reflexivity].
  unfold IndexFlatIP.ntotal, IndexFlatIP.add, PyIdx.len. cbn [IndexFlatIP.xb IndexFlatIP.new].
  rewrite app_nil_l, !length_map. reflexivity.
Qed.

(** What [save_index] wrote is what [load_index] reads back, when the two
    paths differ. *)
Lemma load_after_save vs fs qe index_path metadata_path i :
  VectorStore.index vs = Some i ->
  index_path <> metadata_path ->
  QueryEngine.load_index qe
    (VectorStore.save_index vs fs index_path metadata_path)
    index_path metadata_path =
  ({| QueryEngine.index := Some i;
      QueryEngine.metadata := VectorStore.metadata vs |}, true).
Proof.
  intros Hi Hne. unfold VectorStore.save_index, QueryEngine.load_index.
  rewrite Hi.
  rewrite lookup_insert_ne by congruence.
  rewrite !lookup_insert_eq. reflexivity.
Qed.

(** Saving to one and the same path leaves only the metadata there, and
    loading fails. *)
Lemma load_after_save_same_path vs fs qe path i :
  VectorStore.index vs = Some i ->
  QueryEngine.load_index qe (VectorStore.save_index vs fs path path) path path =
  (qe, false).
Proof.
  intros Hi. unfold VectorStore.save_index, QueryEngine.load_index.
  rewrite Hi, lookup_insert_eq. reflexivity.
Qed.

(** One run of the build keeps a store aligned. *)
Lemma build_keeps_aligned tok embed norm vs data fs :
  store_aligned vs ->
  store_aligned
    (fst (VectorStore.build_from_json_files tok embed norm vs data fs)).
Proof.
  intros [Hlock Hn]. unfold VectorStore.build_from_json_files.
  destruct (PyList.is_empty data); [split; assumption|].
  cbn [fst].
  set (vs1 := VectorStore.process_data tok vs data 500).
  assert (Hlock1 : length (VectorStore.texts vs1) =
                   length (VectorStore.metadata vs1))
    by (apply process_data_lockstep; exact Hlock).
  destruct (VectorStore.texts vs1) as [|t ts] eqn:Et.
  - rewrite create_index_no_texts by assumption.
    split; [rewrite Et; exact Hlock1|].
    destruct (VectorStore.metadata vs1) as [|m ms] eqn:Em; [|discriminate].
    unfold vs1 in Em, Et |- *. rewrite process_data_extend in Em, Et |- *.
    simpl in Em, Et |- *.
    apply app_eq_nil in Em. destruct Em as [Em _].
    rewrite <- Hn, Em. reflexivity.
  - destruct (create_index_ntotal embed norm vs1) as [i [Hi [Hni Hm]]];
      [congruence|].
    unfold store_aligned. rewrite Hi, Hm. split.
    + unfold VectorStore.create_index. rewrite Et. exact Hlock1.
    + simpl. rewrite Hni, Et. unfold PyIdx.len. rewrite Hlock1. reflexivity.
Qed.

(** C4, as stated, fails: single operations leave the two collections
    unequal. [process_data] on an aligned store that has an index
    appends records and leaves the index as it was; and [load_index]
    returns [True] on files whose counts differ, so that after the load
    the metadata has one record and the index two rows. *)
Lemma alignment_not_kept_counterexample :
  let vs := {| VectorStore.index := Some Sample.two_rows;
               VectorStore.texts := [Sample.fox; Sample.fox];
               VectorStore.metadata := [Sample.record0; Sample.record0] |} in
  let loaded := QueryEngine.load_index QueryEngine.init
                  Sample.mismatched_files "faiss_index" "metadata.pkl" in
  store_aligned vs
  /\ ~ store_aligned
        (VectorStore.process_data Sample.sent_tokenize vs
           [Sample.five_texts_doc] 500)
  /\ snd loaded = true
  /\ ~ engine_aligned (fst loaded).
Proof.
  cbv zeta. split; [split; reflexivity|].
  split; [|split; [reflexivity|]].
  - intros [_ H]. vm_compute in H. discriminate H.
  - intros H. vm_compute in H. discriminate H.
Qed.

(** C4 (amended): the metadata and the index have the same number of
    entries along the build pipeline. A new store is aligned; a run of
    [build_from_json_files] keeps a store aligned; and after a run on a
    new store either an index exists and loading the saved files gives an
    aligned query engine that holds this index and the store's metadata,
    or no index was made and nothing was written. *)
Theorem build_pipeline_aligned
    (tok : string -> list string) (embed : string -> list Q)
    (norm : list Q -> list Q) :
  store_aligned VectorStore.init
  /\ (forall vs data fs,
        store_aligned vs ->
        store_aligned
          (fst (VectorStore.build_from_json_files tok embed norm vs data fs)))
  /\ (forall data fs qe,
        let built := VectorStore.build_from_json_files tok embed norm
                       VectorStore.init data fs in
        match VectorStore.index (fst built) with
        | Some i =>
            exists qe',
              QueryEngine.load_index qe (snd built)
                "faiss_index" "metadata.pkl" = (qe', true)
              /\ QueryEngine.index qe' = Some i
              /\ QueryEngine.metadata qe' = VectorStore.metadata (fst built)
              /\ engine_aligned qe'
        | None => snd built = fs
        end).
Proof.
  split; [split; reflexivity|].
  split; [intros vs data fs; apply build_keeps_aligned|].
  intros data fs qe built.
  pose proof (build_keeps_aligned tok embed norm VectorStore.init data fs
                (conj eq_refl eq_refl)) as [_ Hn].
  fold built in Hn.
  destruct (VectorStore.index (fst built)) as [i|] eqn:Hi.
  - exists {| QueryEngine.index := Some i;
              QueryEngine.metadata := VectorStore.metadata (fst built) |}.
    split; [|split; [reflexivity|split; [reflexivity|exact Hn]]].
    unfold built in *. unfold VectorStore.build_from_json_files in *.
    destruct (PyList.is_empty data); [discriminate|].
    cbn [fst snd] in *.
    apply load_after_save; [exact Hi|discriminate].
  - unfold built in *. unfold VectorStore.build_from_json_files in *.
    destruct (PyList.is_empty data); [reflexivity|].
    cbn [fst snd] in *. unfold VectorStore.save_index. rewrite Hi.
    reflexivity.
Qed.

Lemma build_pipeline_aligned_witness :
  store_aligned
    (fst (VectorStore.build_from_json_files Sample.sent_tokenize
            Sample.embed Sample.normalize_L2 VectorStore.init
            [Sample.five_texts_doc] ∅)).
Proof.
  apply (proj1 (proj2 (build_pipeline_aligned Sample.sent_tokenize
                         Sample.embed Sample.normalize_L2))).
  split; reflexivity.
Defined.

(** C7: saving a built index with its metadata and loading the pair again
    gives back the same dimension, the same number of rows, the same
    vector values and the same metadata sequence. *)
Theorem save_load_roundtrip
    (vs : VectorStore.t) (fs : gmap string file) (qe : QueryEngine.t)
    (index_path metadata_path : string) (i : IndexFlatIP.t) :
  VectorStore.index vs = Some i ->
  index_path <> metadata_path ->
  exists qe' i',
    QueryEngine.load_index qe
      (VectorStore.save_index vs fs index_path metadata_path)
      index_path metadata_path = (qe', true)
    /\ QueryEngine.index qe' = Some i'
    /\ IndexFlatIP.d i' = IndexFlatIP.d i
    /\ IndexFlatIP.ntotal i' = IndexFlatIP.ntotal i
    /\ IndexFlatIP.xb i' = IndexFlatIP.xb i
    /\ QueryEngine.metadata qe' = VectorStore.metadata vs.
Proof.
  intros Hi Hne. eexists _, i.
  rewrite (load_after_save vs fs qe index_path metadata_path i Hi Hne).
  repeat split; reflexivity.
Qed.

Lemma save_load_roundtrip_witness :
  exists qe' i',
    QueryEngine.load_index QueryEngine.init
      (VectorStore.save_index
         {| VectorStore.index := Some Sample.two_rows;
            VectorStore.texts := [Sample.fox; Sample.fox];
            VectorStore.metadata := [Sample.record0; Sample.record0] |}
         ∅ "faiss_index" "metadata.pkl")
      "faiss_index" "metadata.pkl" = (qe', true)
    /\ QueryEngine.index qe' = Some i'
    /\ IndexFlatIP.d i' = IndexFlatIP.d Sample.two_rows
    /\ IndexFlatIP.ntotal i' = IndexFlatIP.ntotal Sample.two_rows
    /\ IndexFlatIP.xb i' = IndexFlatIP.xb Sample.two_rows
    /\ QueryEngine.metadata qe' = [Sample.record0; Sample.record0].
Proof.
  apply (save_load_roundtrip
           {| VectorStore.index := Some Sample.two_rows;
              VectorStore.texts := [Sample.fox; Sample.fox];
              VectorStore.metadata := [Sample.record0; Sample.record0] |}
           ∅ QueryEngine.init "faiss_index" "metadata.pkl" Sample.two_rows).
  - reflexivity.
  - discriminate.
Defined.

(** ** Loading *)

(** C3, as stated, fails: an index of two rows with a metadata list of
    one record loads with [True], and a query over the pair is served. *)
Lemma load_index_mismatch_counterexample :
  let loaded := QueryEngine.load_index QueryEngine.init
                  Sample.mismatched_files "faiss_index" "metadata.pkl" in
  IndexFlatIP.ntotal Sample.two_rows = 2
  /\ PyIdx.len [Sample.record0] = 1
  /\ loaded = (Sample.mismatched_engine, true)
  /\ returns (QueryEngine.search Sample.embed Sample.normalize_L2
                (fst loaded) "ab" 1) = true.
Proof. repeat split; vm_compute; reflexivity. Qed.

(** C3 (amended): [load_index] compares no counts. Whenever both files
    can be read it returns [True] with the index and the metadata as
    they were read, whatever their sizes; it returns [True] in no other
    case. *)
Theorem load_index_accepts_any_pair
    (qe : QueryEngine.t) (fs : gmap string file)
    (index_path metadata_path : string) :
  (forall i m,
     fs !! index_path = Some (FaissFile i) ->
     fs !! metadata_path = Some (PickleFile m) ->
     QueryEngine.load_index qe fs index_path metadata_path =
       ({| QueryEngine.index := Some i; QueryEngine.metadata := m |}, true))
  /\ (snd (QueryEngine.load_index qe fs index_path metadata_path) = true ->
      exists i m,
        fs !! index_path = Some (FaissFile i) /\
        fs !! metadata_path = Some (PickleFile m)).
Proof.
  unfold QueryEngine.load_index. split.
  - intros i m Hi Hm. rewrite Hi, Hm. reflexivity.
  - destruct (fs !! index_path) as [[i|m]|]; try discriminate.
    destruct (fs !! metadata_path) as [[i'|m]|]; try discriminate.
    intros _. exists i, m. split; reflexivity.
Qed.

Lemma load_index_accepts_any_pair_witness :
  QueryEngine.load_index QueryEngine.init Sample.mismatched_files
    "faiss_index" "metadata.pkl" =
  ({| QueryEngine.index := Some Sample.two_rows;
      QueryEngine.metadata := [Sample.record0] |}, true).
Proof.
  apply (proj1 (load_index_accepts_any_pair QueryEngine.init
                  Sample.mismatched_files "faiss_index" "metadata.pkl")).
  - vm_compute. reflexivity.
  - vm_compute. reflexivity.
Defined.

(** ** Searching *)

(** The index answers a query with exactly [k] entries. *)
Lemma index_search_length i x k raw :
  IndexFlatIP.search i x k = Return raw -> length raw = Z.to_nat k.
Proof.
  unfold IndexFlatIP.search.
  destruct (negb (PyIdx.len x =? IndexFlatIP.d i)); [discriminate|].
  destruct (negb (k >? 0)); [discriminate|].
  intros H. injection H as <-.
  rewrite length_app, length_replicate.
  pose proof (length_take_le (IndexFlatIP.rank_all (IndexFlatIP.scored i x))
                (Z.to_nat k)).
  rewrite length_take. lia.
Qed.

(** One iteration on a row whose id is not negative: the row is kept
    with the record at that id, or skipped when the id is past the end of
    the metadata. *)
Lemma search_row_nonneg md acc i s idx :
  0 <= idx ->
  QueryEngine.search_row md acc (i, (s, idx)) =
  Return (acc ++
    match md !! Z.to_nat idx with
    | Some m =>
        [ {| QueryEngine.rank := i + 1;
             QueryEngine.score := s;
             QueryEngine.result_metadata := m;
             QueryEngine.result_text := text m;
             QueryEngine.text_chunk :=
               (chunk_id m + 1, total_chunks m, url m) |} ]
    | None => []
    end).
Proof.
  intros Hidx. unfold QueryEngine.search_row, PyIdx.getitem, PyIdx.len.
  destruct (Z.ltb_spec idx (Z.of_nat (length md))) as [Hlt|Hge].
  - destruct (Z.ltb_spec idx 0) as [|_]; [lia|].
    destruct (Z.ltb_spec idx 0) as [|_]; [lia|].
    destruct (md !! Z.to_nat idx) as [m|] eqn:E.
    + reflexivity.
    + apply lookup_ge_None in E. lia.
  - rewrite (proj2 (lookup_ge_None md (Z.to_nat idx))) by lia.
    rewrite app_nil_r. reflexivity.
Qed.

Lemma omap_resolved_cons md i s idx rows :
  omap (resolved md) ((i, (s, idx)) :: rows) =
  match md !! Z.to_nat idx with
  | Some m => (i, s, m) :: omap (resolved md) rows
  | None => omap (resolved md) rows
  end.
Proof.
  cbn [omap list_omap]. unfold resolved at 1. cbn [fst snd].
  destruct (md !! Z.to_nat idx); reflexivity.
Qed.

Lemma search_loop_nonneg md rows acc :
  Forall (fun r : Z * (Q * Z) => 0 <= snd (snd r)) rows ->
  exists rs,
    QueryEngine.search_loop md rows acc = Return (acc ++ rs) /\
    map summary rs =
      omap (resolved md) (map (fun r => (fst r + 1, snd r)) rows).
Proof.
  intros H. revert acc.
  induction H as [|[i [s idx]] rows Hidx _ IH]; intros acc.
  - exists []. rewrite app_nil_r. split; reflexivity.
  - cbn [QueryEngine.search_loop]. simpl in Hidx.
    rewrite search_row_nonneg by assumption. cbn [mbind result_bind].
    cbn [map fst snd]. rewrite omap_resolved_cons.
    destruct (md !! Z.to_nat idx) as [m|].
    + destruct (IH (acc ++
        [ {| QueryEngine.rank := i + 1;
             QueryEngine.score := s;
             QueryEngine.result_metadata := m;
             QueryEngine.result_text := text m;
             QueryEngine.text_chunk :=
               (chunk_id m + 1, total_chunks m, url m) |} ]))
        as [rs [Hrs Hsum]].
      rewrite Hrs, <- app_assoc.
      eexists. split; [reflexivity|].
      simpl. rewrite Hsum. reflexivity.
    + rewrite app_nil_r. destruct (IH acc) as [rs [Hrs Hsum]].
      exists rs. split; [exact Hrs|]. simpl. exact Hsum.
Qed.

Lemma Forall_enumerate {X} (P : X -> Prop) (l : list X) :
  Forall P l -> Forall (fun r : Z * X => P (snd r)) (PyIdx.enumerate l).
Proof.
  unfold PyIdx.enumerate. generalize Z.of_nat as g.
  intros g H. revert g. induction H as [|x l Hx _ IH]; intros g; simpl.
  - constructor.
  - constructor; [exact Hx|]. apply (IH (g ∘ S)).
Qed.

(** The loop returns no more results than it is given rows. *)
Lemma search_loop_length md rows acc rs :
  QueryEngine.search_loop md rows acc = Return rs ->
  (length rs <= length acc + length rows)%nat.
Proof.
  revert acc. induction rows as [|[i [s idx]] rows IH]; intros acc; simpl.
  - intros H. injection H as <-. lia.
  - unfold QueryEngine.search_row.
    destruct (idx <? PyIdx.len md).
    + destruct (PyIdx.getitem md idx) as [m|e]; simpl; [|discriminate].
      intros H. apply IH in H. rewrite length_app in H. simpl in H. lia.
    + simpl. intros H. apply IH in H. lia.
Qed.

(** [search] never returns more than [top_k] results. *)
Lemma search_at_most_top_k embed norm qe query top_k rs :
  0 <= top_k ->
  QueryEngine.search embed norm qe query top_k = Return rs ->
  PyIdx.len rs <= top_k.
Proof.
  intros Hk. unfold QueryEngine.search, PyIdx.len.
  destruct (QueryEngine.index qe) as [i|].
  - destruct (IndexFlatIP.search i (norm (embed query)) top_k) as [raw|e] eqn:E;
      simpl; [|discriminate].
    apply index_search_length in E. unfold QueryEngine.search_rows.
    intros H. apply search_loop_length in H.
    rewrite enumerate_length in H. simpl in H. lia.
  - simpl. intros H. injection H as <-. simpl. lia.
Qed.

(** C1, as stated, fails: over an index of two rows and a metadata list
    of one record the index returns row id 1, which is out of bounds for
    the metadata; the query raises nothing and returns the one other
    row. *)
Lemma search_out_of_range_counterexample :
  IndexFlatIP.search Sample.two_rows
    (Sample.normalize_L2 (Sample.embed "ab")) 2 =
    Return [(1%Q, 0); (0%Q, 1)]
  /\ PyIdx.len (QueryEngine.metadata Sample.mismatched_engine) = 1
  /\ exists r,
       QueryEngine.search Sample.embed Sample.normalize_L2
         Sample.mismatched_engine "ab" 2 = Return [r]
       /\ summary r = (1, 1%Q, Sample.record0).
Proof.
  split; [vm_compute; reflexivity|].
  split; [reflexivity|].
  eexists. split; vm_compute; reflexivity.
Qed.

(** C1 (amended): the result loop skips a row whose id is at or past the
    end of the metadata, without raising. For every query for which the
    index returns no negative row id, [search] raises nothing and
    returns exactly the rows whose id lies inside the metadata, in the
    order of the index, each with the record at its id and with the
    1-based position it had among all returned rows as its rank. *)
Theorem search_rows_skips_out_of_range (md : list MetadataRecord) :
  (forall acc i s idx,
     PyIdx.len md <= idx ->
     QueryEngine.search_row md acc (i, (s, idx)) = Return acc)
  /\ (forall raw,
        Forall (fun r : Q * Z => 0 <= snd r) raw ->
        exists rs,
          QueryEngine.search_rows md raw = Return rs /\
          map summary rs = omap (resolved md) (ranked_rows raw))
  /\ (forall (embed : string -> list Q) (norm : list Q -> list Q)
             qe i query top_k raw,
        QueryEngine.metadata qe = md ->
        QueryEngine.index qe = Some i ->
        IndexFlatIP.search i (norm (embed query)) top_k = Return raw ->
        Forall (fun r : Q * Z => 0 <= snd r) raw ->
        exists rs,
          QueryEngine.search embed norm qe query top_k = Return rs /\
          map summary rs = omap (resolved md) (ranked_rows raw)).
Proof.
  assert (Hloop : forall raw,
            Forall (fun r : Q * Z => 0 <= snd r) raw ->
            exists rs,
              QueryEngine.search_rows md raw = Return rs /\
              map summary rs = omap (resolved md) (ranked_rows raw)).
  { intros raw H. unfold QueryEngine.search_rows, ranked_rows.
    destruct (search_loop_nonneg md (PyIdx.enumerate raw) [])
      as [rs [Hrs Hsum]].
    - apply (Forall_enumerate (fun r : Q * Z => 0 <= snd r)). exact H.
    - exists rs. split; [exact Hrs | exact Hsum]. }
  split; [|split].
  - intros acc i s idx Hidx. unfold QueryEngine.search_row.
    destruct (Z.ltb_spec idx (PyIdx.len md)) as [|_]; [lia|]. reflexivity.
  - exact Hloop.
  - intros embed norm qe i query top_k raw Hmd Hi Hs Hraw.
    unfold QueryEngine.search. rewrite Hi, Hs, Hmd.
    cbn [mbind result_bind]. apply Hloop. exact Hraw.
Qed.

Lemma search_rows_skips_out_of_range_witness :
  exists rs,
    QueryEngine.search_rows [Sample.record0] [(1%Q, 0); (0%Q, 1)] = Return rs /\
    map summary rs =
      omap (resolved [Sample.record0]) (ranked_rows [(1%Q, 0); (0%Q, 1)]).
Proof.
  apply (proj1 (proj2 (search_rows_skips_out_of_range [Sample.record0]))
           [(1%Q, 0); (0%Q, 1)]).
  repeat constructor; simpl; lia.
Defined.

(** C2: an index built from five chunks and queried with [top_k = 10]
    gives ten results, not five: the index fills its answer up to
    [top_k] with row id [-1], the test [idx < len(self.metadata)] lets
    [-1] pass, and [self.metadata[-1]] is the last record. Over an index
    without rows the same lookup raises [IndexError]. *)
Theorem search_top_k_above_ntotal :
  let built := VectorStore.build_from_json_files Sample.sent_tokenize
                 Sample.embed Sample.normalize_L2 VectorStore.init
                 [Sample.five_texts_doc] ∅ in
  let loaded := QueryEngine.load_index QueryEngine.init (snd built)
                  "faiss_index" "metadata.pkl" in
  snd loaded = true
  /\ IndexFlatIP.ntotal <$> QueryEngine.index (fst loaded) = Some 5
  /\ PyIdx.len (QueryEngine.metadata (fst loaded)) = 5
  /\ (exists rs,
        QueryEngine.search Sample.embed Sample.normalize_L2 (fst loaded)
          "what fox" 10 = Return rs
        /\ PyIdx.len rs = 10
        /\ map (fun r => (QueryEngine.rank r, QueryEngine.score r,
                          QueryEngine.result_text r)) (drop 5 rs) =
           map (fun n => (n, IndexFlatIP.NEG_FLT_MAX,
                          "Echo text about the quick brown foxes and the dog"%string))
               [6; 7; 8; 9; 10])
  /\ QueryEngine.search Sample.embed Sample.normalize_L2
       Sample.empty_engine "what fox" 10 = Raise IndexError.
Proof.
  cbv zeta. split; [vm_compute; reflexivity|].
  split; [vm_compute; reflexivity|].
  split; [vm_compute; reflexivity|].
  split; [|vm_compute; reflexivity].
  eexists. split; [vm_compute; reflexivity|].
  split; vm_compute; reflexivity.
Qed.

(** C9: over an index of one row a query with [top_k = 2] returns two
    results; the second has the score [-FLT_MAX], far below [-1], and is
    the inner product of the query with no stored row. *)
Theorem search_score_below_minus_one :
  exists r1 r2,
    QueryEngine.search Sample.embed Sample.normalize_L2
      Sample.one_row_engine "ab" 2 = Return [r1; r2]
    /\ summary r1 = (1, 1%Q, Sample.record0)
    /\ summary r2 = (2, IndexFlatIP.NEG_FLT_MAX, Sample.record0)
    /\ (QueryEngine.score r2 < - (1))%Q.
Proof.
  eexists _, _. split; [vm_compute; reflexivity|].
  split; [vm_compute; reflexivity|].
  split; [vm_compute; reflexivity|].
  vm_compute. reflexivity.
Qed.

(** * Further properties *)

(** ** The chunking loop *)

Lemma words_app l1 l2 : words (l1 ++ l2) = words l1 + words l2.
Proof.
  unfold words. induction l1 as [|x l1 IH]; simpl; [reflexivity|].
  rewrite IH. lia.
Qed.

Lemma words_single s : words [s] = word_count s.
Proof. unfold words. simpl. lia. Qed.

Lemma slice_from_drop {A} (start : Z) (l : list A) :
  exists n, PyList.slice_from start l = drop n l.
Proof. unfold PyList.slice_from. eexists. reflexivity. Qed.

Lemma is_run_grow r all more : is_run r all -> is_run r (all ++ more).
Proof.
  intros [Hne [pre [post ->]]]. split; [exact Hne|].
  exists pre, (post ++ more). rewrite <- !app_assoc. reflexivity.
Qed.

Lemma last_run_snoc prev runs r : last_run prev (runs ++ [r]) = Some r.
Proof. unfold last_run. rewrite last_snoc. reflexivity. Qed.

Lemma last_run_cons prev r0 runs :
  last_run prev (r0 :: runs) = last_run (Some r0) runs.
Proof.
  unfold last_run. rewrite last_cons. destruct (last runs); reflexivity.
Qed.

Lemma chain_snoc chunk_size ov prev runs r :
  chain chunk_size ov prev runs ->
  follows chunk_size ov (last_run prev runs) r ->
  chain chunk_size ov prev (runs ++ [r]).
Proof.
  revert prev. induction runs as [|r0 runs IH]; intros prev Hc Hf; simpl in *.
  - split; [exact Hf|exact I].
  - destruct Hc as [H0 Hc]. split; [exact H0|].
    apply IH; [exact Hc|]. rewrite <- (last_run_cons prev). exact Hf.
Qed.

Section ChunkInvariant.

Variables chunk_size overlap_sentences : Z.

Lemma chunk_inv_init :
  chunk_inv chunk_size overlap_sentences [] chunk_init [].
Proof.
  constructor; simpl.
  - reflexivity.
  - constructor.
  - exists []. reflexivity.
  - intros s [].
  - reflexivity.
  - reflexivity.
  - exact I.
  - left. split; reflexivity.
Qed.

(** One iteration keeps the invariant; the run list grows by the current
    sentences when the iteration emits a chunk. *)
Lemma chunk_inv_step processed st runs sentence :
  chunk_inv chunk_size overlap_sentences processed st runs ->
  exists runs',
    chunk_inv chunk_size overlap_sentences (processed ++ [sentence])
      (chunk_step chunk_size overlap_sentences st sentence) runs'.
Proof.
  intros [Hch Hruns [pre Hsuf] Hcov Hfirst Hcnt Hchain Hcur].
  unfold chunk_step.
  destruct (current_chunk_sentences st) as [|c0 cs] eqn:Ecur.
  - (* nothing accumulated yet: the test fails on the empty list *)
    rewrite andb_false_r.
    destruct Hcur as [[_ ->]|[fresh [Hne [Hf _]]]].
    2:{ destruct (last_run None runs); destruct fresh; simpl in Hf;
        try congruence.
        all: symmetry in Hf; apply app_eq_nil in Hf; destruct Hf; congruence. }
    exists []. rewrite Ecur. rewrite app_nil_r in Hsuf.
    constructor; simpl.
    + exact Hch.
    + constructor.
    + exists processed. reflexivity.
    + intros s Hs. left. apply in_app_or in Hs. destruct Hs as [Hs|Hs].
      * destruct (Hcov s Hs) as [[]|[r [[] _]]].
      * exact Hs.
    + rewrite <- Hfirst. reflexivity.
    + rewrite Hcnt, words_single. unfold words. simpl. lia.
    + exact I.
    + right. exists [sentence]. split; [discriminate|].
      split; [reflexivity|right; reflexivity].
  - cbn [PyList.is_empty negb]. rewrite andb_true_r.
    destruct (Z.gtb_spec (current_word_count st + word_count sentence)
                chunk_size) as [Hgt|Hle].
    + (* the chunk is emitted *)
      exists (runs ++ [c0 :: cs]).
      assert (Hrun : is_run (c0 :: cs) (processed ++ [sentence])).
      { split; [discriminate|]. exists pre, [sentence].
        rewrite Hsuf, <- app_assoc. reflexivity. }
      destruct (slice_from_drop (- overlap_sentences) (c0 :: cs)) as [n Hn].
      constructor; simpl.
      * rewrite Ecur, Hch, map_app. reflexivity.
      * apply Forall_app. split.
        -- eapply Forall_impl; [exact Hruns|].
           intros r Hr. apply is_run_grow. exact Hr.
        -- constructor; [exact Hrun|constructor].
      * rewrite Ecur, Hn. exists (pre ++ take n (c0 :: cs)).
        rewrite Hsuf, <- !app_assoc. f_equal.
        rewrite (app_assoc (take n (c0 :: cs))), take_drop. reflexivity.
      * intros s Hs. apply in_app_or in Hs. destruct Hs as [Hs|Hs].
        -- right. destruct (Hcov s Hs) as [Hc|[r [Hr Hsr]]].
           ++ exists (c0 :: cs). split; [|exact Hc].
              apply in_or_app. right. left. reflexivity.
           ++ exists r. split; [|exact Hsr]. apply in_or_app. left. exact Hr.
        -- left. apply in_or_app. right. exact Hs.
      * destruct runs as [|r0 runs]; simpl.
        -- exists [sentence]. rewrite <- Hfirst. reflexivity.
        -- destruct Hfirst as [post ->]. exists (post ++ [sentence]).
           rewrite <- app_assoc. reflexivity.
      * rewrite word_count_join, Ecur, words_app, words_single. reflexivity.
      * apply chain_snoc; [exact Hchain|].
        destruct Hcur as [[Hc _]|Hf]; [discriminate|exact Hf].
      * right. rewrite last_run_snoc, Ecur.
        exists [sentence]. split; [discriminate|].
        split; [reflexivity|right; reflexivity].
    + (* the sentence joins the current chunk *)
      exists runs. rewrite Ecur.
      constructor; simpl.
      * exact Hch.
      * eapply Forall_impl; [exact Hruns|].
        intros r Hr. apply is_run_grow. exact Hr.
      * exists pre. rewrite Hsuf, <- app_assoc. reflexivity.
      * intros s Hs. apply in_app_or in Hs. destruct Hs as [Hs|Hs].
        -- destruct (Hcov s Hs) as [Hc|Hr]; [left|right; exact Hr].
           apply (in_or_app (c0 :: cs) [sentence]). left. exact Hc.
        -- left. apply (in_or_app (c0 :: cs) [sentence]). right. exact Hs.
      * destruct runs as [|r0 runs].
        -- rewrite <- Hfirst. reflexivity.
        -- destruct Hfirst as [post ->]. exists (post ++ [sentence]).
           rewrite <- app_assoc. reflexivity.
      * rewrite Hcnt. change (c0 :: cs ++ [sentence]) with ((c0 :: cs) ++ [sentence]).
        rewrite words_app, words_single. reflexivity.
      * exact Hchain.
      * right. destruct Hcur as [[Hc _]|[fresh [Hne [Hf _]]]]; [discriminate|].
        exists (fresh ++ [sentence]). split.
        -- destruct fresh; discriminate.
        -- split.
           ++ change (c0 :: cs ++ [sentence]) with ((c0 :: cs) ++ [sentence]).
              rewrite Hf, <- app_assoc. reflexivity.
           ++ left. change (c0 :: cs ++ [sentence]) with ((c0 :: cs) ++ [sentence]).
              rewrite words_app, words_single, <- Hcnt. lia.
Qed.

Lemma chunk_inv_loop sentences processed st runs :
  chunk_inv chunk_size overlap_sentences processed st runs ->
  exists runs',
    chunk_inv chunk_size overlap_sentences (processed ++ sentences)
      (chunk_loop chunk_size overlap_sentences sentences st) runs'.
Proof.
  unfold chunk_loop. revert processed st runs.
  induction sentences as [|s l IH]; intros processed st runs H; simpl.
  - exists runs. rewrite app_nil_r. exact H.
  - destruct (chunk_inv_step processed st runs s H) as [runs1 H1].
    destruct (IH _ _ _ H1) as [runs2 H2].
    exists runs2. rewrite <- app_assoc in H2. exact H2.
Qed.

End ChunkInvariant.

Lemma follows_nonempty chunk_size ov prev r :
  follows chunk_size ov prev r -> r <> [].
Proof.
  intros [fresh [Hne [-> _]]] H. apply app_eq_nil in H.
  destruct H as [_ H]. exact (Hne H).
Qed.

Lemma chain_lookup chunk_size ov runs : forall prev i r,
  chain chunk_size ov prev runs ->
  runs !! i = Some r ->
  follows chunk_size ov
    (match i with O => prev | S j => runs !! j end) r.
Proof.
  induction runs as [|r0 runs IH]; intros prev i r Hc Hi; [discriminate|].
  destruct Hc as [H0 Hc]. destruct i as [|i]; simpl in Hi.
  - injection Hi as <-. exact H0.
  - pose proof (IH (Some r0) i r Hc Hi) as H.
    destruct i as [|j]; exact H.
Qed.

(** The runs behind the chunks [chunk_text] returns. *)
Lemma chunk_text_runs_inv tok text chunk_size ov :
  text <> EmptyString ->
  exists runs,
    chunk_text tok text chunk_size ov = map (PyStr.join " ") runs
    /\ Forall (fun r => is_run r (tok text)) runs
    /\ (forall s, In s (tok text) -> exists r, In r runs /\ In s r)
    /\ match runs with
       | [] => tok text = []
       | r :: _ => exists post, tok text = r ++ post
       end
    /\ match last runs with
       | None => True
       | Some r => exists pre, tok text = pre ++ r
       end
    /\ chain chunk_size ov None runs.
Proof.
  intros Htext. unfold chunk_text.
  destruct text as [|c t]; [congruence|]. cbn [PyStr.truthy negb].
  destruct (chunk_inv_loop chunk_size ov (tok (String c t)) [] chunk_init []
              (chunk_inv_init chunk_size ov)) as [runs H].
  rewrite app_nil_l in H.
  destruct H as [Hch Hruns [pre Hsuf] Hcov Hfirst _ Hchain Hcur].
  unfold chunk_finish.
  set (st := chunk_loop chunk_size ov (tok (String c t)) chunk_init) in *.
  destruct (current_chunk_sentences st) as [|c0 cs] eqn:Ecur.
  - cbn [PyList.is_empty].
    assert (Hruns0 : runs = []).
    { destruct Hcur as [[_ Hr]|Hf]; [exact Hr|].
      apply follows_nonempty in Hf. congruence. }
    subst runs. exists []. split; [exact Hch|]. split; [constructor|].
    split.
    { intros s Hs. destruct (Hcov s Hs) as [[]|[r [[] _]]]. }
    split; [symmetry; exact Hfirst|]. split; exact I.
  - cbn [PyList.is_empty]. exists (runs ++ [c0 :: cs]).
    split; [rewrite Hch, map_app; reflexivity|].
    split.
    { apply Forall_app. split; [exact Hruns|].
      constructor; [|constructor]. split; [discriminate|].
      exists pre, []. rewrite app_nil_r. exact Hsuf. }
    split.
    { intros s Hs. destruct (Hcov s Hs) as [Hc|[r [Hr Hsr]]].
      - exists (c0 :: cs). split; [|exact Hc].
        apply in_or_app. right. left. reflexivity.
      - exists r. split; [|exact Hsr]. apply in_or_app. left. exact Hr. }
    split.
    { destruct runs as [|r0 runs]; simpl.
      - exists []. rewrite app_nil_r. symmetry. exact Hfirst.
      - exact Hfirst. }
    split.
    { rewrite last_snoc. exists pre. exact Hsuf. }
    apply chain_snoc; [exact Hchain|].
    destruct Hcur as [[Hc _]|Hf]; [discriminate|exact Hf].
Qed.

Section ChunkTextFacts.

Variable tok : string -> list string.
Variables chunk_size overlap_sentences : Z.

(** X1: [chunk_text] returns no chunk exactly when the text is empty or has
    no sentence. *)
Theorem chunk_text_nil_iff (text : string) :
  chunk_text tok text chunk_size overlap_sentences = [] <->
  text = EmptyString \/ tok text = [].
Proof.
  split.
  - intros H. destruct text as [|c t]; [left; reflexivity|]. right.
    destruct (chunk_text_runs_inv tok (String c t) chunk_size
                overlap_sentences) as [runs [Hc [_ [Hcov _]]]];
      [discriminate|].
    rewrite H in Hc. destruct runs; [|discriminate].
    destruct (tok (String c t)) as [|s l]; [reflexivity|].
    destruct (Hcov s (or_introl eq_refl)) as [r [[] _]].
  - intros [->|H]; [reflexivity|].
    unfold chunk_text. rewrite H.
    destruct (PyStr.truthy text); reflexivity.
Qed.

(** X3: The running word count is at every point the number of words of the
    sentences of the current chunk, also after a chunk was emitted and
    sentences were carried over. *)
Theorem chunk_loop_word_count (sentences : list string) :
  current_word_count
    (chunk_loop chunk_size overlap_sentences sentences chunk_init) =
  words (current_chunk_sentences
           (chunk_loop chunk_size overlap_sentences sentences chunk_init)).
Proof.
  destruct (chunk_inv_loop chunk_size overlap_sentences sentences []
              chunk_init [] (chunk_inv_init chunk_size overlap_sentences))
    as [runs H].
  exact (inv_count _ _ _ _ _ H).
Qed.

(** X4: Every chunk is a non-empty contiguous run of the text's sentences,
    joined with single spaces, and every sentence is in some chunk. *)
Theorem chunk_text_contiguous_cover (text : string) :
  text <> EmptyString ->
  exists runs,
    chunk_text tok text chunk_size overlap_sentences =
      map (PyStr.join " ") runs
    /\ Forall (fun r => is_run r (tok text)) runs
    /\ (forall s, In s (tok text) -> exists r, In r runs /\ In s r).
Proof.
  intros H.
  destruct (chunk_text_runs_inv tok text chunk_size overlap_sentences H)
    as [runs [Hc [Hr [Hcov _]]]].
  exists runs. split; [exact Hc|]. split; [exact Hr|exact Hcov].
Qed.

(** X5: The first chunk starts with the first sentence and the last chunk
    ends with the last one: the runs behind the chunks are non-empty
    contiguous runs of the text's sentences, the first of them a prefix
    and the last a suffix of the sentence list. *)
Theorem chunk_text_first_last (text : string) :
  text <> EmptyString ->
  tok text <> [] ->
  exists runs first final,
    chunk_text tok text chunk_size overlap_sentences =
      map (PyStr.join " ") runs
    /\ Forall (fun r => is_run r (tok text)) runs
    /\ head runs = Some first
    /\ last runs = Some final
    /\ first <> []
    /\ final <> []
    /\ (exists post, tok text = first ++ post)
    /\ (exists pre, tok text = pre ++ final)
    /\ head first = head (tok text)
    /\ last final = last (tok text).
Proof.
  intros H Htok.
  destruct (chunk_text_runs_inv tok text chunk_size overlap_sentences H)
    as [runs [Hc [Hruns [_ [Hfirst [Hlast _]]]]]].
  destruct runs as [|r0 runs]; [congruence|].
  destruct (last (r0 :: runs)) as [final|] eqn:El;
    [|rewrite last_cons in El; destruct (last runs); discriminate].
  assert (Hr0 : r0 <> []).
  { inversion Hruns as [|? ? [Hne _] _]; subst. exact Hne. }
  assert (Hfin : final <> []).
  { rewrite List.Forall_forall in Hruns.
    destruct (Hruns final) as [Hne _]; [|exact Hne].
    apply list_elem_of_In. apply (last_Some_elem_of _ _ El). }
  exists (r0 :: runs), r0, final.
  split; [exact Hc|]. split; [exact Hruns|].
  split; [reflexivity|]. split; [exact El|].
  split; [exact Hr0|]. split; [exact Hfin|].
  split; [exact Hfirst|]. split; [exact Hlast|]. split.
  - destruct Hfirst as [post ->]. destruct r0; [congruence|reflexivity].
  - destruct Hlast as [pre ->]. rewrite last_app.
    destruct (last final) eqn:E; [reflexivity|].
    apply last_None in E. congruence.
Qed.

(** X6: With a positive overlap every chunk after the first starts with the
    last [overlap_sentences] sentences of the chunk before it (with all
    of them if that chunk has fewer), followed by at least one new
    sentence. *)
Theorem chunk_text_overlap_pos (text : string) :
  text <> EmptyString ->
  0 < overlap_sentences ->
  exists runs,
    chunk_text tok text chunk_size overlap_sentences =
      map (PyStr.join " ") runs
    /\ Forall (fun r => is_run r (tok text)) runs
    /\ forall i r r',
         runs !! i = Some r -> runs !! S i = Some r' ->
         exists fresh,
           fresh <> [] /\
           r' = last_n (Z.to_nat overlap_sentences) r ++ fresh.
Proof.
  intros H Hov.
  destruct (chunk_text_runs_inv tok text chunk_size overlap_sentences H)
    as [runs [Hc [Hruns [_ [_ [_ Hchain]]]]]].
  exists runs. split; [exact Hc|]. split; [exact Hruns|].
  intros i r r' Hi Hi'.
  pose proof (chain_lookup _ _ _ _ _ _ Hchain Hi') as Hf. simpl in Hf.
  rewrite Hi in Hf. destruct Hf as [fresh [Hne [Hr' _]]].
  exists fresh. split; [exact Hne|].
  rewrite Hr'. unfold carried. rewrite slice_from_neg_pos by exact Hov.
  reflexivity.
Qed.

(** X7: With [overlap_sentences = 0] every chunk after the first repeats the
    whole chunk before it and adds at least one new sentence: the chunks
    grow, each a proper extension of the one before. *)
Theorem chunk_text_overlap_zero_grows (text : string) :
  text <> EmptyString ->
  overlap_sentences = 0 ->
  exists runs,
    chunk_text tok text chunk_size overlap_sentences =
      map (PyStr.join " ") runs
    /\ Forall (fun r => is_run r (tok text)) runs
    /\ forall i r r',
         runs !! i = Some r -> runs !! S i = Some r' ->
         exists fresh, fresh <> [] /\ r' = r ++ fresh.
Proof.
  intros H Hov.
  destruct (chunk_text_runs_inv tok text chunk_size overlap_sentences H)
    as [runs [Hc [Hruns [_ [_ [_ Hchain]]]]]].
  exists runs. split; [exact Hc|]. split; [exact Hruns|].
  intros i r r' Hi Hi'.
  pose proof (chain_lookup _ _ _ _ _ _ Hchain Hi') as Hf. simpl in Hf.
  rewrite Hi in Hf. destruct Hf as [fresh [Hne [Hr' _]]].
  exists fresh. split; [exact Hne|].
  rewrite Hr'. unfold carried. rewrite Hov, slice_from_zero. reflexivity.
Qed.

(** X8: A chunk has more than [chunk_size] words only if it holds exactly one
    sentence besides those carried over from the chunk before it; the
    first chunk only if it is a single sentence. The chunks are taken as
    runs of the text's sentences, the first of them starting at the
    first sentence. *)
Theorem chunk_text_budget (text : string) :
  text <> EmptyString ->
  exists runs,
    chunk_text tok text chunk_size overlap_sentences =
      map (PyStr.join " ") runs
    /\ Forall (fun r => is_run r (tok text)) runs
    /\ (forall r, runs !! 0%nat = Some r ->
          (exists post, tok text = r ++ post)
          /\ (words r <= chunk_size \/ exists s, r = [s]))
    /\ (forall i p r,
          runs !! i = Some p -> runs !! S i = Some r ->
          words r <= chunk_size
          \/ exists s, r = carried overlap_sentences p ++ [s]).
Proof.
  intros H.
  destruct (chunk_text_runs_inv tok text chunk_size overlap_sentences H)
    as [runs [Hc [Hruns [_ [Hfirst [_ Hchain]]]]]].
  exists runs. split; [exact Hc|]. split; [exact Hruns|]. split.
  - intros r Hr. split.
    { destruct runs as [|r0 runs]; [discriminate|].
      simpl in Hr. injection Hr as <-. exact Hfirst. }
    pose proof (chain_lookup _ _ _ _ _ _ Hchain Hr) as Hf. simpl in Hf.
    destruct Hf as [fresh [_ [-> [Hw|Hl]]]]; [left; exact Hw|right].
    destruct fresh as [|s [|s' l]]; try discriminate. exists s. reflexivity.
  - intros i p r Hp Hr.
    pose proof (chain_lookup _ _ _ _ _ _ Hchain Hr) as Hf. simpl in Hf.
    rewrite Hp in Hf.
    destruct Hf as [fresh [_ [-> [Hw|Hl]]]]; [left; exact Hw|right].
    destruct fresh as [|s [|s' l]]; try discriminate. exists s. reflexivity.
Qed.

Lemma chunk_step_pending st sentence :
  (length (chunks (chunk_step chunk_size overlap_sentences st sentence))
   + pending (chunk_step chunk_size overlap_sentences st sentence)
   <= length (chunks st) + pending st + 1)%nat.
Proof.
  unfold chunk_step, pending.
  destruct (current_chunk_sentences st) as [|c0 cs] eqn:E.
  - rewrite andb_false_r, E. simpl. lia.
  - destruct (current_word_count st + word_count sentence >? chunk_size);
      simpl.
    + rewrite length_app. simpl.
      destruct (PyList.slice_from (- overlap_sentences) (current_chunk_sentences st) ++ [sentence]);
        simpl; lia.
    + rewrite E. simpl. lia.
Qed.

Lemma chunk_loop_pending sentences st :
  (length (chunks (chunk_loop chunk_size overlap_sentences sentences st))
   + pending (chunk_loop chunk_size overlap_sentences sentences st)
   <= length (chunks st) + pending st + length sentences)%nat.
Proof.
  unfold chunk_loop. revert st.
  induction sentences as [|s l IH]; intros st; simpl; [lia|].
  pose proof (IH (chunk_step chunk_size overlap_sentences st s)).
  pose proof (chunk_step_pending st s). lia.
Qed.

(** X2: There are never more chunks than sentences. *)
Theorem chunk_text_count_le (text : string) :
  (length (chunk_text tok text chunk_size overlap_sentences)
   <= length (tok text))%nat.
Proof.
  unfold chunk_text. destruct (PyStr.truthy text); simpl; [|lia].
  pose proof (chunk_loop_pending (tok text) chunk_init) as H.
  unfold chunk_finish, pending in *.
  destruct (PyList.is_empty
              (current_chunk_sentences
                 (chunk_loop chunk_size overlap_sentences (tok text) chunk_init)));
    [simpl in H; lia|].
  rewrite length_app. simpl in *. lia.
Qed.

End ChunkTextFacts.

Lemma chunk_text_contiguous_cover_witness :
  exists runs,
    chunk_text Sample.sent_tokenize
      "Cats sleep. Dogs bark. Birds sing. Fish swim." 5 1 =
      map (PyStr.join " ") runs
    /\ Forall (fun r =>
                 is_run r (Sample.sent_tokenize
                             "Cats sleep. Dogs bark. Birds sing. Fish swim."))
               runs
    /\ (forall s,
          In s (Sample.sent_tokenize
                  "Cats sleep. Dogs bark. Birds sing. Fish swim.") ->
          exists r, In r runs /\ In s r).
Proof.
  apply (chunk_text_contiguous_cover Sample.sent_tokenize 5 1
           "Cats sleep. Dogs bark. Birds sing. Fish swim.").
  discriminate.
Defined.

Lemma chunk_text_first_last_witness :
  exists runs first final,
    chunk_text Sample.sent_tokenize "Cats sleep. Dogs bark. Birds sing. Fish swim." 5 1 = map (PyStr.join " ") runs
    /\ Forall (fun r => is_run r (Sample.sent_tokenize "Cats sleep. Dogs bark. Birds sing. Fish swim.")) runs
    /\ head runs = Some first
    /\ last runs = Some final
    /\ first <> []
    /\ final <> []
    /\ (exists post, Sample.sent_tokenize "Cats sleep. Dogs bark. Birds sing. Fish swim." = first ++ post)
    /\ (exists pre, Sample.sent_tokenize "Cats sleep. Dogs bark. Birds sing. Fish swim." = pre ++ final)
    /\ head first = head (Sample.sent_tokenize "Cats sleep. Dogs bark. Birds sing. Fish swim.")
    /\ last final = last (Sample.sent_tokenize "Cats sleep. Dogs bark. Birds sing. Fish swim.").
Proof.
  apply (chunk_text_first_last Sample.sent_tokenize 5 1 "Cats sleep. Dogs bark. Birds sing. Fish swim.").
  - discriminate.
  - vm_compute. discriminate.
Defined.

Lemma chunk_text_overlap_pos_witness :
  exists runs,
    chunk_text Sample.sent_tokenize "Cats sleep. Dogs bark. Birds sing. Fish swim." 5 1 = map (PyStr.join " ") runs
    /\ Forall (fun r => is_run r (Sample.sent_tokenize "Cats sleep. Dogs bark. Birds sing. Fish swim.")) runs
    /\ forall i r r',
         runs !! i = Some r -> runs !! S i = Some r' ->
         exists fresh,
           fresh <> [] /\ r' = last_n (Z.to_nat 1) r ++ fresh.
Proof.
  apply (chunk_text_overlap_pos Sample.sent_tokenize 5 1 "Cats sleep. Dogs bark. Birds sing. Fish swim.").
  - discriminate.
  - lia.
Defined.

Lemma chunk_text_overlap_zero_grows_witness :
  exists runs,
    chunk_text Sample.sent_tokenize "Cats sleep. Dogs bark. Birds sing. Fish swim." 5 0 = map (PyStr.join " ") runs
    /\ Forall (fun r => is_run r (Sample.sent_tokenize "Cats sleep. Dogs bark. Birds sing. Fish swim.")) runs
    /\ forall i r r',
         runs !! i = Some r -> runs !! S i = Some r' ->
         exists fresh, fresh <> [] /\ r' = r ++ fresh.
Proof.
  apply (chunk_text_overlap_zero_grows Sample.sent_tokenize 5 0 "Cats sleep. Dogs bark. Birds sing. Fish swim.").
  - discriminate.
  - reflexivity.
Defined.

Lemma chunk_text_budget_witness :
  exists runs,
    chunk_text Sample.sent_tokenize "Cats sleep. Dogs bark. Birds sing. Fish swim." 5 1 = map (PyStr.join " ") runs
    /\ Forall (fun r => is_run r (Sample.sent_tokenize "Cats sleep. Dogs bark. Birds sing. Fish swim.")) runs
    /\ (forall r, runs !! 0%nat = Some r ->
          (exists post, Sample.sent_tokenize "Cats sleep. Dogs bark. Birds sing. Fish swim." = r ++ post)
          /\ (words r <= 5 \/ exists s, r = [s]))
    /\ (forall i p r,
          runs !! i = Some p -> runs !! S i = Some r ->
          words r <= 5 \/ exists s, r = carried 1 p ++ [s]).
Proof.
  apply (chunk_text_budget Sample.sent_tokenize 5 1 "Cats sleep. Dogs bark. Birds sing. Fish swim.").
  discriminate.
Defined.

(** ** The collector *)

(** Induction over documents, with the hypothesis for every element of an
    array and every value of an object. *)
Lemma json_nested_ind (P : json -> Prop) :
  P JNull ->
  (forall b, P (JBool b)) ->
  (forall n, P (JNum n)) ->
  (forall s, P (JStr s)) ->
  (forall items, Forall P items -> P (JArr items)) ->
  (forall fields, Forall (fun kv => P (snd kv)) fields -> P (JObj fields)) ->
  forall v, P v.
Proof.
  intros Hnull Hbool Hnum Hstr Harr Hobj.
  fix IH 1. intros [| b | n | s | items | fields].
  - exact Hnull.
  - apply Hbool.
  - apply Hnum.
  - apply Hstr.
  - apply Harr. induction items as [|x items IHitems]; constructor.
    + apply IH.
    + exact IHitems.
  - apply Hobj. induction fields as [|[k x] fields IHfields]; constructor.
    + apply IH.
    + exact IHfields.
Qed.

Lemma rstrip_cons c r :
  PyStr.rstrip (String c r) =
  match PyStr.rstrip r with
  | EmptyString =>
      if PyStr.isspace c then EmptyString else String c EmptyString
  | String c' r' => String c (String c' r')
  end.
Proof. reflexivity. Qed.

Lemma rstrip_idempotent s : PyStr.rstrip (PyStr.rstrip s) = PyStr.rstrip s.
Proof.
  induction s as [|c r IH]; [reflexivity|]. rewrite rstrip_cons.
  destruct (PyStr.rstrip r) as [|c' r'] eqn:E.
  - destruct (PyStr.isspace c) eqn:Hc; [reflexivity|].
    rewrite rstrip_cons. simpl. rewrite Hc. reflexivity.
  - rewrite rstrip_cons, IH. reflexivity.
Qed.

Lemma lstrip_head s :
  match PyStr.lstrip s with
  | EmptyString => True
  | String c _ => PyStr.isspace c = false
  end.
Proof.
  induction s as [|c r IH]; [exact I|]. simpl.
  destruct (PyStr.isspace c) eqn:Hc; [exact IH|exact Hc].
Qed.

Lemma rstrip_keeps_head c r :
  PyStr.isspace c = false ->
  PyStr.rstrip (String c r) = String c (PyStr.rstrip r).
Proof.
  intros Hc. simpl. rewrite Hc. destruct (PyStr.rstrip r); reflexivity.
Qed.

(** Stripping a stripped string changes nothing. *)
Lemma strip_idempotent s : PyStr.strip (PyStr.strip s) = PyStr.strip s.
Proof.
  unfold PyStr.strip. pose proof (lstrip_head s) as H.
  destruct (PyStr.lstrip s) as [|c r]; [reflexivity|].
  rewrite rstrip_keeps_head by exact H.
  cbn [PyStr.lstrip]. rewrite H.
  rewrite <- rstrip_keeps_head by exact H.
  apply rstrip_idempotent.
Qed.

(** X9: Every collected text is at least 40 characters long and has no
    whitespace at either end. *)
Theorem extract_texts_long_and_stripped (obj : json) :
  Forall (fun t => 40 <= PyStr.len t /\ PyStr.strip t = t)
         (_extract_texts obj).
Proof.
  induction obj as [| b | n | s | items IH | fields IH] using json_nested_ind;
    try (simpl; constructor).
  - simpl. induction IH as [|x items Hx _ IHitems]; simpl; [constructor|].
    apply Forall_app. split; [exact Hx|exact IHitems].
  - simpl. induction IH as [|[k x] fields Hx _ IHfields]; simpl; [constructor|].
    apply Forall_app. split; [|exact IHfields].
    destruct x; try exact Hx.
    destruct (Z.leb_spec 40 (PyStr.len (PyStr.strip s))) as [Hlen|_];
      [|constructor].
    constructor; [|constructor]. split; [exact Hlen|apply strip_idempotent].
Qed.

(** X10: The texts collected do not depend on what the keys are called. *)
Theorem extract_texts_rekey (f : string -> string) (obj : json) :
  _extract_texts (rekey f obj) = _extract_texts obj.
Proof.
  induction obj as [| b | n | s | items IH | fields IH] using json_nested_ind;
    try reflexivity.
  - simpl. induction IH as [|x items Hx _ IHitems]; simpl; [reflexivity|].
    rewrite Hx, IHitems. reflexivity.
  - simpl. induction IH as [|[k x] fields Hx _ IHfields]; simpl; [reflexivity|].
    rewrite IHfields. f_equal.
    destruct x; try reflexivity; exact Hx.
Qed.

(** ** Records *)

Lemma in_imap_index {X I} (g : nat -> I) (l : list X) (ix : I * X) :
  In ix (imap (fun i x => (g i, x)) l) ->
  exists i, (i < length l)%nat /\ fst ix = g i.
Proof.
  revert g. induction l as [|x l IH]; intros g H; simpl in H; [destruct H|].
  destruct H as [<-|H].
  - exists 0%nat. simpl. split; [lia|reflexivity].
  - destruct (IH (g ∘ S) H) as [i [Hi Hg]].
    exists (S i). simpl. split; [lia|exact Hg].
Qed.

Lemma chunk_records_well_formed u chunks :
  Forall well_formed (chunk_records u chunks).
Proof.
  unfold chunk_records. apply List.Forall_forall. intros m Hm.
  apply in_map_iff in Hm. destruct Hm as [ic [<- Hic]].
  apply in_imap_index in Hic. destruct Hic as [i [Hi Hfst]].
  unfold well_formed, PyIdx.len. simpl. rewrite Hfst.
  split; [lia|reflexivity].
Qed.

Lemma chunk_records_text u chunks : map text (chunk_records u chunks) = chunks.
Proof.
  unfold chunk_records. rewrite map_map. simpl.
  apply enumerate_snd.
Qed.

Lemma doc_records_well_formed tok chunk_size u doc :
  Forall well_formed (doc_records tok chunk_size u doc).
Proof.
  unfold doc_records.
  induction (_extract_texts (JObj doc)) as [|raw l IH]; [constructor|].
  cbn [flat_map]. apply Forall_app. split; [|exact IH].
  apply chunk_records_well_formed.
Qed.

Lemma doc_records_text tok chunk_size u doc :
  map text (doc_records tok chunk_size u doc) = doc_chunks tok chunk_size doc.
Proof.
  unfold doc_records, doc_chunks.
  induction (_extract_texts (JObj doc)) as [|raw l IH]; [reflexivity|].
  cbn [flat_map]. rewrite map_app, chunk_records_text, IH. reflexivity.
Qed.

Section ProcessDataFacts.

Variable tok : string -> list string.
Variable embed : string -> list Q.
Variable norm : list Q -> list Q.

(** X13: Every record [process_data] appends has a chunk id inside
    [0 .. total_chunks - 1] and stores the length of the text it
    stores. *)
Theorem process_data_well_formed vs data chunk_size :
  Forall well_formed (VectorStore.metadata vs) ->
  Forall well_formed
    (VectorStore.metadata (VectorStore.process_data tok vs data chunk_size)).
Proof.
  intros H. rewrite process_data_extend. simpl.
  apply Forall_app. split; [exact H|].
  induction data as [|doc data IH]; [constructor|].
  cbn [flat_map]. apply Forall_app. split; [|exact IH].
  apply doc_records_well_formed.
Qed.

(** The records of a batch of documents store its chunks, in order. *)
Lemma data_records_text (u : list (string * json) -> json) data chunk_size :
  map text (flat_map (fun doc => doc_records tok chunk_size (u doc) doc) data) =
  flat_map (doc_chunks tok chunk_size) data.
Proof.
  induction data as [|doc data IH]; [reflexivity|].
  cbn [flat_map]. rewrite map_app, doc_records_text, IH. reflexivity.
Qed.

(** X14: The record at a position stores the text at that position: if this
    holds before [process_data], it holds after. *)
Theorem process_data_texts_agree vs data chunk_size :
  map text (VectorStore.metadata vs) = VectorStore.texts vs ->
  map text
    (VectorStore.metadata (VectorStore.process_data tok vs data chunk_size)) =
  VectorStore.texts (VectorStore.process_data tok vs data chunk_size).
Proof.
  intros H. rewrite process_data_extend. simpl.
  rewrite map_app, H. f_equal.
  apply (data_records_text VectorStore.source_identifier).
Qed.

(** X15: [process_data] never touches the index: when it appends a chunk to
    an aligned store that has an index, the index is left with fewer
    rows than there are records. *)
Theorem process_data_leaves_index_stale vs data chunk_size i :
  store_aligned vs ->
  VectorStore.index vs = Some i ->
  flat_map (doc_chunks tok chunk_size) data <> [] ->
  VectorStore.index (VectorStore.process_data tok vs data chunk_size) = Some i
  /\ IndexFlatIP.ntotal i <
     PyIdx.len
       (VectorStore.metadata (VectorStore.process_data tok vs data chunk_size)).
Proof.
  intros [_ Hn] Hi Hnew. rewrite process_data_extend. simpl.
  split; [exact Hi|].
  rewrite Hi in Hn. simpl in Hn. rewrite <- Hn.
  unfold PyIdx.len. rewrite length_app.
  rewrite (data_records_length tok chunk_size VectorStore.source_identifier).
  destruct (flat_map (doc_chunks tok chunk_size) data); [congruence|].
  simpl. lia.
Qed.

(** X16: Documents without any text of 40 characters leave nothing behind: a
    build from them makes no index and writes no file. *)
Theorem build_without_texts data fs :
  Forall (fun doc => _extract_texts (JObj doc) = []) data ->
  VectorStore.build_from_json_files tok embed norm VectorStore.init data fs =
  (VectorStore.init, fs).
Proof.
  intros H. unfold VectorStore.build_from_json_files.
  destruct (PyList.is_empty data); [reflexivity|].
  assert (Hp : VectorStore.process_data tok VectorStore.init data 500 =
               VectorStore.init).
  { rewrite process_data_extend.
    assert (Hc : flat_map (doc_chunks tok 500) data = []).
    { induction H as [|doc data Hd _ IH]; [reflexivity|].
      cbn [flat_map]. rewrite IH. unfold doc_chunks. rewrite Hd. reflexivity. }
    assert (Hr : flat_map (fun doc => doc_records tok 500
                             (VectorStore.source_identifier doc) doc) data = []).
    { clear Hc. induction H as [|doc data Hd _ IH]; [reflexivity|].
      cbn [flat_map]. rewrite IH.
      unfold doc_records. rewrite Hd. reflexivity. }
    rewrite Hc, Hr. apply extend_nil. }
  rewrite Hp. reflexivity.
Qed.

End ProcessDataFacts.

Lemma process_data_well_formed_witness :
  Forall well_formed
    (VectorStore.metadata
       (VectorStore.process_data Sample.sent_tokenize VectorStore.init
          [Sample.five_texts_doc] 500)).
Proof.
  apply (process_data_well_formed Sample.sent_tokenize VectorStore.init
           [Sample.five_texts_doc] 500).
  constructor.
Defined.

Lemma process_data_texts_agree_witness :
  map text
    (VectorStore.metadata
       (VectorStore.process_data Sample.sent_tokenize VectorStore.init
          [Sample.five_texts_doc] 500)) =
  VectorStore.texts
    (VectorStore.process_data Sample.sent_tokenize VectorStore.init
       [Sample.five_texts_doc] 500).
Proof.
  apply (process_data_texts_agree Sample.sent_tokenize VectorStore.init
           [Sample.five_texts_doc] 500).
  reflexivity.
Defined.

Lemma process_data_leaves_index_stale_witness :
  let vs := {| VectorStore.index := Some Sample.two_rows;
               VectorStore.texts := [Sample.fox; Sample.fox];
               VectorStore.metadata := [Sample.record0; Sample.record0] |} in
  VectorStore.index
    (VectorStore.process_data Sample.sent_tokenize vs
       [Sample.five_texts_doc] 500) = Some Sample.two_rows
  /\ IndexFlatIP.ntotal Sample.two_rows <
     PyIdx.len
       (VectorStore.metadata
          (VectorStore.process_data Sample.sent_tokenize vs
             [Sample.five_texts_doc] 500)).
Proof.
  apply (process_data_leaves_index_stale Sample.sent_tokenize
           {| VectorStore.index := Some Sample.two_rows;
              VectorStore.texts := [Sample.fox; Sample.fox];
              VectorStore.metadata := [Sample.record0; Sample.record0] |}
           [Sample.five_texts_doc] 500 Sample.two_rows).
  - split; reflexivity.
  - reflexivity.
  - vm_compute. discriminate.
Defined.

Lemma build_without_texts_witness :
  VectorStore.build_from_json_files Sample.sent_tokenize Sample.embed
    Sample.normalize_L2 VectorStore.init
    [[("url"%string, JStr "https://x"); ("id"%string, JStr "a short label")]]
    ∅ =
  (VectorStore.init, ∅).
Proof.
  apply (build_without_texts Sample.sent_tokenize Sample.embed
           Sample.normalize_L2).
  repeat constructor.
Defined.

(** ** Documents that are no objects *)

(** X17: When every loaded document is an object, [process_data] runs through;
    when one is not, it raises [AttributeError] there, after appending
    the chunks of the documents before it and none of those after it. *)
Theorem process_loaded_data_stops_at_non_object
    (tok : string -> list string) (vs : VectorStore.t)
    (docs : list (list (string * json))) (chunk_size : Z) :
  process_loaded_data tok vs (map JObj docs) chunk_size =
    (VectorStore.process_data tok vs docs chunk_size, None)
  /\ forall bad rest,
       (forall fields, bad <> JObj fields) ->
       process_loaded_data tok vs (map JObj docs ++ bad :: rest) chunk_size =
         (VectorStore.process_data tok vs docs chunk_size,
          Some AttributeError).
Proof.
  split.
  - revert vs. induction docs as [|doc docs IH]; intros vs; simpl.
    + reflexivity.
    + apply IH.
  - intros bad rest Hbad. revert vs.
    induction docs as [|doc docs IH]; intros vs; simpl.
    + destruct bad; try reflexivity. exfalso. exact (Hbad _ eq_refl).
    + apply IH.
Qed.

Lemma process_loaded_data_stops_at_non_object_witness :
  process_loaded_data Sample.sent_tokenize VectorStore.init
    (map JObj [Sample.five_texts_doc]
       ++ JArr [JObj Sample.five_texts_doc] :: [JObj Sample.five_texts_doc])
    500 =
  (VectorStore.process_data Sample.sent_tokenize VectorStore.init
     [Sample.five_texts_doc] 500,
   Some AttributeError).
Proof.
  apply (proj2 (process_loaded_data_stops_at_non_object Sample.sent_tokenize
                  VectorStore.init [Sample.five_texts_doc] 500)).
  intros fields. discriminate.
Defined.

(** ** Building the index *)

Section CreateIndexFacts.

Variable tok : string -> list string.
Variable embed : string -> list Q.
Variable norm : list Q -> list Q.

Lemma create_index_rows vs t ts :
  VectorStore.texts vs = t :: ts ->
  VectorStore.create_index embed norm vs =
  {| VectorStore.index :=
       Some {| IndexFlatIP.d := PyIdx.len (embed t);
               IndexFlatIP.xb := map norm (map embed (t :: ts)) |};
     VectorStore.texts := t :: ts;
     VectorStore.metadata := VectorStore.metadata vs |}.
Proof.
  intros H. unfold VectorStore.create_index. rewrite H. reflexivity.
Qed.


(** X19: After a build on a new store, row [i] of the index is the normalized
    embedding of the text that metadata record [i] stores. *)
Theorem build_rows_match_records data fs i :
  let built := VectorStore.build_from_json_files tok embed norm
                 VectorStore.init data fs in
  VectorStore.index (fst built) = Some i ->
  IndexFlatIP.xb i =
  map (fun m => norm (embed (text m))) (VectorStore.metadata (fst built)).
Proof.
  unfold VectorStore.build_from_json_files.
  destruct (PyList.is_empty data); [discriminate|]. cbn [fst].
  set (vs1 := VectorStore.process_data tok VectorStore.init data 500).
  assert (Ht : map text (VectorStore.metadata vs1) = VectorStore.texts vs1).
  { unfold vs1. rewrite process_data_extend. simpl.
    apply (data_records_text tok VectorStore.source_identifier). }
  destruct (VectorStore.texts vs1) as [|t ts] eqn:E.
  - rewrite create_index_no_texts by exact E.
    unfold vs1. rewrite process_data_extend. discriminate.
  - rewrite (create_index_rows vs1 t ts E).
    cbn [VectorStore.index VectorStore.metadata].
    intros H. injection H as <-. cbn [IndexFlatIP.xb].
    change (norm (embed t) :: map norm (map embed ts))
      with (map norm (map embed (t :: ts))).
    rewrite <- Ht, !map_map. reflexivity.
Qed.

End CreateIndexFacts.

Lemma build_rows_match_records_witness :
  IndexFlatIP.xb
    {| IndexFlatIP.d := 2;
       IndexFlatIP.xb := [[1%Q; 0%Q]; [0%Q; 1%Q]; [1%Q; 0%Q]; [0%Q; 1%Q];
                          [0%Q; 1%Q]] |} =
  map (fun m => Sample.normalize_L2 (Sample.embed (text m)))
    (VectorStore.metadata
       (fst (VectorStore.build_from_json_files Sample.sent_tokenize
               Sample.embed Sample.normalize_L2 VectorStore.init
               [Sample.five_texts_doc] ∅))).
Proof.
  apply (build_rows_match_records Sample.sent_tokenize Sample.embed
           Sample.normalize_L2 [Sample.five_texts_doc] ∅).
  vm_compute. reflexivity.
Defined.

(** ** Files *)

(** X20: [save_index] writes the two paths it is given and no other; without
    an index it writes nothing. *)
Theorem save_index_frame
    (vs : VectorStore.t) (fs : gmap string file)
    (index_path metadata_path : string) :
  (forall path,
     path <> index_path -> path <> metadata_path ->
     VectorStore.save_index vs fs index_path metadata_path !! path =
     fs !! path)
  /\ (VectorStore.index vs = None ->
      VectorStore.save_index vs fs index_path metadata_path = fs).
Proof.
  unfold VectorStore.save_index. split.
  - intros path Hi Hm. destruct (VectorStore.index vs); [|reflexivity].
    rewrite !lookup_insert_ne by congruence. reflexivity.
  - intros ->. reflexivity.
Qed.

Lemma save_index_frame_witness :
  VectorStore.save_index
    {| VectorStore.index := Some Sample.two_rows;
       VectorStore.texts := [Sample.fox; Sample.fox];
       VectorStore.metadata := [Sample.record0; Sample.record0] |}
    Sample.mismatched_files "a" "b" !! "faiss_index"%string =
  Sample.mismatched_files !! "faiss_index"%string.
Proof.
  apply (proj1 (save_index_frame
                  {| VectorStore.index := Some Sample.two_rows;
                     VectorStore.texts := [Sample.fox; Sample.fox];
                     VectorStore.metadata := [Sample.record0; Sample.record0] |}
                  Sample.mismatched_files "a" "b")).
  - discriminate.
  - discriminate.
Defined.

(** X21: A load that fails leaves the metadata of the engine as it was. If it
    fails on the index file the engine is unchanged; if it fails on the
    metadata file the index it read has already replaced the engine's
    index. *)
Theorem load_index_failure
    (qe : QueryEngine.t) (fs : gmap string file)
    (index_path metadata_path : string) :
  ((forall i, fs !! index_path <> Some (FaissFile i)) ->
   QueryEngine.load_index qe fs index_path metadata_path = (qe, false))
  /\ (forall i,
        fs !! index_path = Some (FaissFile i) ->
        (forall m, fs !! metadata_path <> Some (PickleFile m)) ->
        QueryEngine.load_index qe fs index_path metadata_path =
          ({| QueryEngine.index := Some i;
              QueryEngine.metadata := QueryEngine.metadata qe |}, false)).
Proof.
  unfold QueryEngine.load_index. split.
  - intros H. destruct (fs !! index_path) as [[i|m]|]; try reflexivity.
    exfalso. exact (H i eq_refl).
  - intros i Hi Hm. rewrite Hi.
    destruct (fs !! metadata_path) as [[i'|m]|]; try reflexivity.
    exfalso. exact (Hm m eq_refl).
Qed.

Lemma load_index_failure_witness :
  QueryEngine.load_index Sample.one_row_engine Sample.mismatched_files
    "faiss_index" "missing.pkl" =
  ({| QueryEngine.index := Some Sample.two_rows;
      QueryEngine.metadata := [Sample.record0] |}, false).
Proof.
  apply (proj2 (load_index_failure Sample.one_row_engine
                  Sample.mismatched_files "faiss_index" "missing.pkl")
           Sample.two_rows).
  - vm_compute. reflexivity.
  - intros m. vm_compute. discriminate.
Defined.

(** ** The result loop *)

(** One iteration on a row whose id is not below [-len(metadata)]. *)
Lemma search_row_wrapped md acc i s idx :
  - PyIdx.len md <= idx ->
  QueryEngine.search_row md acc (i, (s, idx)) =
  Return (acc ++ option_results (result_wrapped md (i + 1, (s, idx)))).
Proof.
  intros Hidx.
  unfold QueryEngine.search_row, result_wrapped, wrapped, PyIdx.getitem.
  cbn [fst snd].
  destruct (Z.ltb_spec idx (PyIdx.len md)) as [Hlt|Hge];
    [|simpl; rewrite app_nil_r; reflexivity].
  destruct (Z.ltb_spec idx 0) as [Hneg|Hpos].
  - destruct (Z.ltb_spec (idx + PyIdx.len md) 0) as [|_]; [lia|].
    destruct (md !! Z.to_nat (idx + PyIdx.len md)) as [m|] eqn:E.
    + reflexivity.
    + apply lookup_ge_None in E. unfold PyIdx.len in *. lia.
  - destruct (Z.ltb_spec idx 0) as [|_]; [lia|].
    destruct (md !! Z.to_nat idx) as [m|] eqn:E.
    + reflexivity.
    + apply lookup_ge_None in E. unfold PyIdx.len in *. lia.
Qed.

(** One iteration on a row whose id is below [-len(metadata)]. *)
Lemma search_row_raises md acc i s idx :
  idx < - PyIdx.len md ->
  QueryEngine.search_row md acc (i, (s, idx)) = Raise IndexError.
Proof.
  intros Hidx. unfold QueryEngine.search_row, PyIdx.getitem.
  pose proof (Nat2Z.is_nonneg (length md)) as Hlen. unfold PyIdx.len in *.
  destruct (Z.ltb_spec idx (Z.of_nat (length md))) as [_|]; [|lia].
  destruct (Z.ltb_spec idx 0) as [_|]; [|lia].
  destruct (Z.ltb_spec (idx + Z.of_nat (length md)) 0) as [_|]; [|lia].
  reflexivity.
Qed.

Lemma search_loop_wrapped md rows acc :
  Forall (fun r : Z * (Q * Z) => - PyIdx.len md <= snd (snd r)) rows ->
  QueryEngine.search_loop md rows acc =
  Return (acc ++ omap (result_wrapped md)
                   (map (fun r : Z * (Q * Z) => (fst r + 1, snd r)) rows)).
Proof.
  intros H. revert acc.
  induction H as [|[i [s idx]] rows Hidx _ IH]; intros acc.
  - simpl. rewrite app_nil_r. reflexivity.
  - cbn [QueryEngine.search_loop]. simpl in Hidx.
    rewrite search_row_wrapped by exact Hidx. cbn [mbind result_bind].
    rewrite IH, <- app_assoc. f_equal. f_equal.
    cbn [map omap list_omap fst snd].
    destruct (result_wrapped md (i + 1, (s, idx))); reflexivity.
Qed.

Lemma search_loop_returns md rows acc :
  returns (QueryEngine.search_loop md rows acc) =
  forallb (fun r : Z * (Q * Z) => - PyIdx.len md <=? snd (snd r)) rows.
Proof.
  revert acc. induction rows as [|[i [s idx]] rows IH]; intros acc.
  - reflexivity.
  - cbn [QueryEngine.search_loop forallb snd].
    destruct (Z.leb_spec (- PyIdx.len md) idx) as [Hok|Hbad].
    + rewrite search_row_wrapped by exact Hok. cbn [mbind result_bind].
      apply IH.
    + rewrite search_row_raises by exact Hbad. reflexivity.
Qed.

Lemma forallb_enumerate {X} (p : X -> bool) (l : list X) :
  forallb (fun r : Z * X => p (snd r)) (PyIdx.enumerate l) = forallb p l.
Proof.
  unfold PyIdx.enumerate. generalize Z.of_nat as g. intros g. revert g.
  induction l as [|x l IH]; intros g; simpl; [reflexivity|].
  f_equal. apply (IH (g ∘ S)).
Qed.

Lemma map_fst_imap {X I} (g : nat -> I) (l : list X) :
  map fst (imap (fun i x => (g i, x)) l) = map g (seq 0 (length l)).
Proof.
  revert g. induction l as [|x l IH]; intros g; simpl; [reflexivity|].
  f_equal. rewrite <- seq_shift, map_map. apply (IH (g ∘ S)).
Qed.

Lemma ranked_rows_fst raw : map fst (ranked_rows raw) = ranks (length raw).
Proof.
  unfold ranked_rows, ranks, PyIdx.enumerate.
  rewrite map_map. simpl.
  rewrite <- (map_map fst (fun z => z + 1)), map_fst_imap, map_map.
  reflexivity.
Qed.

Lemma ranked_rows_snd raw : map snd (ranked_rows raw) = raw.
Proof.
  unfold ranked_rows. rewrite map_map. simpl. apply enumerate_snd.
Qed.

Section SearchRowsFacts.

Variable md : list MetadataRecord.

(** The result loop returns exactly when no row id is below
    [-len(metadata)], as a test on the rows. *)
Lemma search_rows_returns_test (raw : list (Q * Z)) :
  returns (QueryEngine.search_rows md raw) =
  forallb (fun r : Q * Z => - PyIdx.len md <=? snd r) raw.
Proof.
  unfold QueryEngine.search_rows. rewrite search_loop_returns.
  apply (forallb_enumerate (fun r : Q * Z => - PyIdx.len md <=? snd r)).
Qed.

(** What the result loop returns when that test holds. *)
Lemma search_rows_of_test (raw : list (Q * Z)) :
  forallb (fun r : Q * Z => - PyIdx.len md <=? snd r) raw = true ->
  QueryEngine.search_rows md raw =
  Return (omap (result_wrapped md) (ranked_rows raw)).
Proof.
  intros H. unfold QueryEngine.search_rows, ranked_rows.
  rewrite search_loop_wrapped; [reflexivity|].
  apply (Forall_enumerate (fun r : Q * Z => - PyIdx.len md <= snd r)).
  apply List.Forall_forall. intros r Hr.
  rewrite forallb_forall in H. apply Z.leb_le. exact (H r Hr).
Qed.

Lemma rows_test_of_Forall (raw : list (Q * Z)) :
  Forall (fun r : Q * Z => - PyIdx.len md <= snd r) raw ->
  forallb (fun r : Q * Z => - PyIdx.len md <=? snd r) raw = true.
Proof.
  intros H. apply forallb_forall. intros r Hr.
  rewrite List.Forall_forall in H. apply Z.leb_le. exact (H r Hr).
Qed.

(** X22: The result loop raises, [IndexError], exactly when some row id is
    below [-len(metadata)]; ids at or past the end are skipped and
    negative ids down to [-len(metadata)] are accepted. *)
Theorem search_rows_returns_iff (raw : list (Q * Z)) :
  returns (QueryEngine.search_rows md raw) = true <->
  Forall (fun r : Q * Z => - PyIdx.len md <= snd r) raw.
Proof.
  rewrite search_rows_returns_test.
  rewrite forallb_forall, List.Forall_forall.
  split; intros H r Hr; specialize (H r Hr).
  - apply Z.leb_le. exact H.
  - apply Z.leb_le. exact H.
Qed.

(** X23: When no row id is below [-len(metadata)], the results are, in order,
    those of the rows with an id below [len(metadata)]; a row with a
    negative id gets the record counted from the end of the metadata. *)
Theorem search_rows_wrapped (raw : list (Q * Z)) :
  Forall (fun r : Q * Z => - PyIdx.len md <= snd r) raw ->
  QueryEngine.search_rows md raw =
  Return (omap (result_wrapped md) (ranked_rows raw)).
Proof.
  intros H. unfold QueryEngine.search_rows, ranked_rows.
  rewrite search_loop_wrapped; [reflexivity|].
  apply (Forall_enumerate (fun r : Q * Z => - PyIdx.len md <= snd r)).
  exact H.
Qed.

Lemma rank_omap_sublist (rows : list (Z * (Q * Z))) :
  sublist (map QueryEngine.rank (omap (result_wrapped md) rows))
          (map fst rows).
Proof.
  induction rows as [|[rk [s idx]] rows IH]; [constructor|].
  cbn [omap list_omap map fst].
  unfold result_wrapped at 1. cbn [fst snd].
  destruct (idx <? PyIdx.len md); [|apply sublist_cons; exact IH].
  destruct (wrapped md idx) as [m|]; simpl.
  - apply sublist_skip. exact IH.
  - apply sublist_cons. exact IH.
Qed.

Lemma Forall_ranked_rows (P : Q * Z -> Prop) (raw : list (Q * Z)) :
  Forall P raw -> Forall (fun r : Z * (Q * Z) => P (snd r)) (ranked_rows raw).
Proof.
  intros H. unfold ranked_rows. apply Forall_map. simpl.
  apply (Forall_enumerate P). exact H.
Qed.

Lemma lookup_imap_pair {X I} (g : nat -> I) (l : list X) (p : nat) :
  imap (fun i x => (g i, x)) l !! p = (fun x => (g p, x)) <$> l !! p.
Proof.
  revert g p. induction l as [|x l IH]; intros g p; [reflexivity|].
  destruct p as [|p]; [reflexivity|]. simpl. apply (IH (g ∘ S)).
Qed.

Lemma lookup_map {X Y} (f : X -> Y) (l : list X) (p : nat) :
  map f l !! p = f <$> l !! p.
Proof.
  revert p. induction l as [|x l IH]; intros p; [reflexivity|].
  destruct p as [|p]; [reflexivity|]. simpl. apply IH.
Qed.

(** The row at position [p] has rank [p + 1]. *)
Lemma ranked_rows_lookup (raw : list (Q * Z)) (p : nat) :
  ranked_rows raw !! p = (fun x => (Z.of_nat p + 1, x)) <$> raw !! p.
Proof.
  unfold ranked_rows, PyIdx.enumerate.
  rewrite lookup_map, lookup_imap_pair.
  destruct (raw !! p); reflexivity.
Qed.

Lemma rank_omap_filter (rows : list (Z * (Q * Z))) :
  Forall (fun r : Z * (Q * Z) => - PyIdx.len md <= snd (snd r)) rows ->
  map QueryEngine.rank (omap (result_wrapped md) rows) =
  map fst (List.filter (fun r : Z * (Q * Z) => snd (snd r) <? PyIdx.len md)
             rows).
Proof.
  induction 1 as [|[rk [s idx]] rows Hidx _ IH]; [reflexivity|].
  simpl in Hidx. cbn [omap list_omap List.filter snd].
  unfold result_wrapped at 1, wrapped. cbn [fst snd].
  destruct (Z.ltb_spec idx (PyIdx.len md)) as [Hlt|_]; [|exact IH].
  destruct (Z.ltb_spec idx 0) as [Hneg|Hpos].
  - destruct (md !! Z.to_nat (idx + PyIdx.len md)) as [m|] eqn:E.
    + simpl. f_equal. exact IH.
    + apply lookup_ge_None in E. unfold PyIdx.len in *. lia.
  - destruct (md !! Z.to_nat idx) as [m|] eqn:E.
    + simpl. f_equal. exact IH.
    + apply lookup_ge_None in E. unfold PyIdx.len in *. lia.
Qed.

(** X24: The rank of a result is the position its row had among all rows the
    index returned, not its position among the results: the ranks are
    those of the rows that pass the test [idx < len(metadata)], so the
    rank [p + 1] occurs exactly when the row at position [p] passes it,
    and a skipped row leaves a gap. *)
Theorem search_rows_ranks (raw : list (Q * Z)) (rs : list QueryEngine.Result) :
  QueryEngine.search_rows md raw = Return rs ->
  map QueryEngine.rank rs =
    map fst (List.filter (fun r : Z * (Q * Z) => snd (snd r) <? PyIdx.len md)
               (ranked_rows raw))
  /\ sublist (map QueryEngine.rank rs) (ranks (length raw))
  /\ (forall p s idx,
        raw !! p = Some (s, idx) ->
        (In (Z.of_nat p + 1) (map QueryEngine.rank rs) <->
         idx < PyIdx.len md)).
Proof.
  intros H.
  assert (Hok : forallb (fun r : Q * Z => - PyIdx.len md <=? snd r) raw = true).
  { rewrite <- search_rows_returns_test, H. reflexivity. }
  rewrite (search_rows_of_test raw Hok) in H. injection H as <-.
  assert (Hrows : Forall (fun r : Z * (Q * Z) =>
                            - PyIdx.len md <= snd (snd r)) (ranked_rows raw)).
  { apply (Forall_ranked_rows (fun r : Q * Z => - PyIdx.len md <= snd r)).
    apply List.Forall_forall. intros r Hr.
    rewrite forallb_forall in Hok. apply Z.leb_le. exact (Hok r Hr). }
  split; [exact (rank_omap_filter _ Hrows)|].
  split; [rewrite <- ranked_rows_fst; apply rank_omap_sublist|].
  intros p s idx Hp. rewrite (rank_omap_filter _ Hrows). split.
  - intros Hin. apply in_map_iff in Hin.
    destruct Hin as [[rk [s' idx']] [Hrk Hin]]. simpl in Hrk.
    apply filter_In in Hin. destruct Hin as [Hin Htest]. simpl in Htest.
    apply list_elem_of_In, list_elem_of_lookup in Hin.
    destruct Hin as [p' Hp']. rewrite ranked_rows_lookup in Hp'.
    destruct (raw !! p') as [[s0 idx0]|] eqn:E; [|discriminate].
    simpl in Hp'. injection Hp' as Hk <- <-.
    assert (p' = p) by lia. subst p'. rewrite Hp in E.
    injection E as <- <-. apply Z.ltb_lt. exact Htest.
  - intros Hlt. apply in_map_iff. exists (Z.of_nat p + 1, (s, idx)).
    split; [reflexivity|]. apply filter_In. split.
    + apply list_elem_of_In, list_elem_of_lookup. exists p.
      rewrite ranked_rows_lookup, Hp. reflexivity.
    + simpl. apply Z.ltb_lt. exact Hlt.
Qed.

Lemma omap_cons_match {X Y} (f : X -> option Y) (x : X) (l : list X) :
  omap f (x :: l) =
  match f x with Some y => y :: omap f l | None => omap f l end.
Proof. reflexivity. Qed.

Lemma result_wrapped_in_range rk s idx :
  0 <= idx < PyIdx.len md ->
  exists m,
    md !! Z.to_nat idx = Some m
    /\ result_wrapped md (rk, (s, idx)) = Some (result_of rk s m).
Proof.
  intros Hidx. unfold result_wrapped, wrapped. cbn [fst snd].
  destruct (Z.ltb_spec idx (PyIdx.len md)) as [_|]; [|lia].
  destruct (Z.ltb_spec idx 0) as [|_]; [lia|].
  destruct (md !! Z.to_nat idx) as [m|] eqn:E.
  - exists m. split; reflexivity.
  - apply lookup_ge_None in E. unfold PyIdx.len in *. lia.
Qed.

Lemma omap_result_in_range (rows : list (Z * (Q * Z))) :
  Forall (fun r : Z * (Q * Z) => 0 <= snd (snd r) < PyIdx.len md) rows ->
  map QueryEngine.rank (omap (result_wrapped md) rows) = map fst rows
  /\ map QueryEngine.score (omap (result_wrapped md) rows) =
     map fst (map snd rows)
  /\ Forall2 (fun r row =>
                md !! Z.to_nat (snd row) = Some (QueryEngine.result_metadata r))
             (omap (result_wrapped md) rows) (map snd rows).
Proof.
  induction 1 as [|[rk [s idx]] rows Hidx _ IH].
  - repeat split; constructor.
  - destruct IH as [Hr [Hs Hm]]. simpl in Hidx.
    destruct (result_wrapped_in_range rk s idx Hidx) as [m [E Hw]].
    rewrite omap_cons_match, Hw. simpl. repeat split.
    + f_equal. exact Hr.
    + f_equal. exact Hs.
    + constructor; [exact E|exact Hm].
Qed.

(** Rows with ids inside the metadata pass the test of the loop. *)
Lemma rows_test_in_range (raw : list (Q * Z)) :
  Forall (fun r : Q * Z => 0 <= snd r < PyIdx.len md) raw ->
  forallb (fun r : Q * Z => - PyIdx.len md <=? snd r) raw = true.
Proof.
  intros H. apply rows_test_of_Forall.
  eapply Forall_impl; [exact H|]. intros r Hr. simpl in Hr.
  unfold PyIdx.len in *. lia.
Qed.

(** X25: When every row id lies inside the metadata, there is one result per
    row, in order: ranks [1 .. n], the scores of the rows, and the
    record at each row id. *)
Theorem search_rows_all_in_range (raw : list (Q * Z)) :
  Forall (fun r : Q * Z => 0 <= snd r < PyIdx.len md) raw ->
  exists rs,
    QueryEngine.search_rows md raw = Return rs
    /\ map QueryEngine.rank rs = ranks (length raw)
    /\ map QueryEngine.score rs = map fst raw
    /\ Forall2 (fun r row =>
                  md !! Z.to_nat (snd row) = Some (QueryEngine.result_metadata r))
               rs raw.
Proof.
  intros H.
  rewrite (search_rows_of_test raw (rows_test_in_range raw H)).
  eexists. split; [reflexivity|].
  destruct (omap_result_in_range (ranked_rows raw)) as [Hr [Hs Hm]].
  { apply (Forall_ranked_rows (fun r : Q * Z => 0 <= snd r < PyIdx.len md)).
    exact H. }
  rewrite ranked_rows_fst in Hr. rewrite ranked_rows_snd in Hs, Hm.
  split; [exact Hr|]. split; [exact Hs|exact Hm].
Qed.

Lemma result_wrapped_filler rk s idx :
  md <> [] ->
  -1 <= idx < PyIdx.len md ->
  exists m,
    result_wrapped md (rk, (s, idx)) = Some (result_of rk s m)
    /\ Some m = if idx =? -1 then last md else md !! Z.to_nat idx.
Proof.
  intros Hmd Hidx. destruct (Z.eqb_spec idx (-1)) as [->|Hne].
  - unfold result_wrapped, wrapped. cbn [fst snd].
    destruct (Z.ltb_spec (-1) (PyIdx.len md)) as [_|]; [|lia].
    cbn [Z.ltb Z.compare]. rewrite last_lookup.
    replace (Z.to_nat (-1 + PyIdx.len md)) with (pred (length md))
      by (unfold PyIdx.len; lia).
    destruct (md !! pred (length md)) as [m|] eqn:E.
    + exists m. split; reflexivity.
    + apply lookup_ge_None in E. destruct md; [congruence|simpl in E; lia].
  - destruct (result_wrapped_in_range rk s idx) as [m [E Hw]]; [lia|].
    exists m. split; [exact Hw|symmetry; exact E].
Qed.

Lemma omap_result_fillers (rows : list (Z * (Q * Z))) :
  md <> [] ->
  Forall (fun r : Z * (Q * Z) => -1 <= snd (snd r) < PyIdx.len md) rows ->
  map QueryEngine.rank (omap (result_wrapped md) rows) = map fst rows
  /\ map QueryEngine.score (omap (result_wrapped md) rows) =
     map fst (map snd rows)
  /\ Forall2 (fun r row =>
                Some (QueryEngine.result_metadata r) =
                if snd row =? -1 then last md
                else md !! Z.to_nat (snd row))
             (omap (result_wrapped md) rows) (map snd rows).
Proof.
  intros Hmd. induction 1 as [|[rk [s idx]] rows Hidx _ IH].
  - repeat split; constructor.
  - destruct IH as [Hr [Hs Hm]]. simpl in Hidx.
    destruct (result_wrapped_filler rk s idx Hmd Hidx) as [m [Hw E]].
    rewrite omap_cons_match, Hw. simpl. repeat split.
    + f_equal. exact Hr.
    + f_equal. exact Hs.
    + constructor; [exact E|exact Hm].
Qed.

(** X26: Over metadata that is not empty, when every row id the index
    returned is a position of the metadata or the filler [-1], the
    result loop raises nothing and returns one result per returned row,
    ranked [1 .. n], with the rows' scores: a row with an id in range
    has the record at that id, and a filler row has the last record of
    the metadata. *)
Theorem search_rows_fillers_resolve (raw : list (Q * Z)) :
  md <> [] ->
  Forall (fun r : Q * Z => -1 <= snd r < PyIdx.len md) raw ->
  exists rs,
    QueryEngine.search_rows md raw = Return rs
    /\ map QueryEngine.rank rs = ranks (length raw)
    /\ map QueryEngine.score rs = map fst raw
    /\ Forall2 (fun r row =>
                  Some (QueryEngine.result_metadata r) =
                  if snd row =? -1 then last md
                  else md !! Z.to_nat (snd row))
               rs raw.
Proof.
  intros Hmd H.
  assert (Hok : forallb (fun r : Q * Z => - PyIdx.len md <=? snd r) raw = true).
  { apply rows_test_of_Forall. eapply Forall_impl; [exact H|].
    intros r Hr. simpl in Hr.
    assert (0 < PyIdx.len md)
      by (unfold PyIdx.len; destruct md; [congruence|simpl; lia]).
    lia. }
  rewrite (search_rows_of_test raw Hok).
  eexists. split; [reflexivity|].
  destruct (omap_result_fillers (ranked_rows raw) Hmd) as [Hr [Hs Hm]].
  { apply (Forall_ranked_rows (fun r : Q * Z => -1 <= snd r < PyIdx.len md)).
    exact H. }
  rewrite ranked_rows_fst in Hr. rewrite ranked_rows_snd in Hs, Hm.
  split; [exact Hr|]. split; [exact Hs|exact Hm].
Qed.

End SearchRowsFacts.

Lemma search_rows_fillers_resolve_witness :
  exists rs,
    QueryEngine.search_rows [Sample.record0]
      [(1%Q, 0); (IndexFlatIP.NEG_FLT_MAX, -1)] = Return rs
    /\ map QueryEngine.rank rs =
       ranks (length [(1%Q, 0); (IndexFlatIP.NEG_FLT_MAX, -1)])
    /\ map QueryEngine.score rs =
       map fst [(1%Q, 0); (IndexFlatIP.NEG_FLT_MAX, -1)]
    /\ Forall2 (fun r row =>
                  Some (QueryEngine.result_metadata r) =
                  if snd row =? -1 then last [Sample.record0]
                  else [Sample.record0] !! Z.to_nat (snd row))
               rs [(1%Q, 0); (IndexFlatIP.NEG_FLT_MAX, -1)].
Proof.
  apply (search_rows_fillers_resolve [Sample.record0]
           [(1%Q, 0); (IndexFlatIP.NEG_FLT_MAX, -1)]).
  - discriminate.
  - repeat constructor; simpl; unfold PyIdx.len; simpl; lia.
Defined.

Lemma search_rows_wrapped_witness :
  QueryEngine.search_rows [Sample.record0]
    [(1%Q, 0); (IndexFlatIP.NEG_FLT_MAX, -1); (0%Q, 1)] =
  Return (omap (result_wrapped [Sample.record0])
            (ranked_rows
               [(1%Q, 0); (IndexFlatIP.NEG_FLT_MAX, -1); (0%Q, 1)])).
Proof.
  apply (search_rows_wrapped [Sample.record0]
           [(1%Q, 0); (IndexFlatIP.NEG_FLT_MAX, -1); (0%Q, 1)]).
  repeat constructor; simpl; unfold PyIdx.len; simpl; lia.
Defined.

Lemma search_rows_ranks_witness :
  map QueryEngine.rank [result_of 2 0%Q Sample.record0] =
    map fst (List.filter
               (fun r : Z * (Q * Z) =>
                  snd (snd r) <? PyIdx.len [Sample.record0])
               (ranked_rows [(1%Q, 3); (0%Q, 0)]))
  /\ sublist (map QueryEngine.rank [result_of 2 0%Q Sample.record0])
             (ranks (length [(1%Q, 3); (0%Q, 0)]))
  /\ (forall p s idx,
        [(1%Q, 3); (0%Q, 0)] !! p = Some (s, idx) ->
        (In (Z.of_nat p + 1)
            (map QueryEngine.rank [result_of 2 0%Q Sample.record0]) <->
         idx < PyIdx.len [Sample.record0])).
Proof.
  apply (search_rows_ranks [Sample.record0] [(1%Q, 3); (0%Q, 0)]).
  vm_compute. reflexivity.
Defined.

Lemma search_rows_all_in_range_witness :
  exists rs,
    QueryEngine.search_rows [Sample.record0; Sample.record0]
      [(1%Q, 1); (0%Q, 0)] = Return rs
    /\ map QueryEngine.rank rs = ranks (length [(1%Q, 1); (0%Q, 0)])
    /\ map QueryEngine.score rs = map fst [(1%Q, 1); (0%Q, 0)]
    /\ Forall2 (fun r row =>
                  [Sample.record0; Sample.record0] !! Z.to_nat (snd row) =
                  Some (QueryEngine.result_metadata r))
               rs [(1%Q, 1); (0%Q, 0)].
Proof.
  apply (search_rows_all_in_range [Sample.record0; Sample.record0]
           [(1%Q, 1); (0%Q, 0)]).
  repeat constructor; simpl; unfold PyIdx.len; simpl; lia.
Defined.

(** ** The interactive loop *)

Section InteractiveFacts.

Variable embed : string -> list Q.
Variable norm : list Q -> list Q.
Variable qe : QueryEngine.t.

(** X28: Without an exit word or an interrupt the loop never ends, not even
    when the input does: the [EOFError] of [input()] is caught like any
    other exception and the loop asks again. *)
Theorem interactive_mode_never_ends (fuel : nat)
    (stdin : list Interactive.input) (out : list Interactive.shown) :
  Forall (fun i => exists l,
            i = Interactive.Line l
            /\ Interactive.is_exit (PyStr.strip l) = false) stdin ->
  Interactive.interactive_mode embed norm fuel qe stdin out = None.
Proof.
  revert stdin out. induction fuel as [|fuel IH]; intros stdin out H.
  - reflexivity.
  - destruct H as [|i stdin [l [-> Hl]] Hrest]; simpl.
    + apply IH. constructor.
    + rewrite Hl.
      destruct (negb (PyStr.truthy (PyStr.strip l))); [apply IH; exact Hrest|].
      destruct (QueryEngine.search embed norm qe (PyStr.strip l) 5);
        apply IH; exact Hrest.
Qed.

(** One iteration on a line that is no exit word. *)
Lemma interactive_mode_line fuel l rest out :
  Interactive.is_exit (PyStr.strip l) = false ->
  Interactive.interactive_mode embed norm (S fuel) qe
    (Interactive.Line l :: rest) out =
  Interactive.interactive_mode embed norm fuel qe rest
    (out ++ Interactive.respond embed norm qe l).
Proof.
  intros Hl. cbn [Interactive.interactive_mode]. rewrite Hl.
  unfold Interactive.respond.
  destruct (negb (PyStr.truthy (PyStr.strip l))).
  - rewrite app_nil_r. reflexivity.
  - destruct (QueryEngine.search embed norm qe (PyStr.strip l) 5); reflexivity.
Qed.

(** X29: The loop ends at the first exit word or interrupt. Until then it
    answers every line that is not blank, with the stripped line as the
    query, and goes on after a query that raised; what comes after the
    exit is not read. *)
Theorem interactive_mode_stops_at_exit
    (pre : list string) (stop : Interactive.input)
    (rest : list Interactive.input) (out : list Interactive.shown)
    (extra : nat) :
  Forall (fun l => Interactive.is_exit (PyStr.strip l) = false) pre ->
  (stop = Interactive.KeyboardInterrupt
   \/ exists l, stop = Interactive.Line l
                /\ Interactive.is_exit (PyStr.strip l) = true) ->
  Interactive.interactive_mode embed norm (S (length pre + extra)) qe
    (map Interactive.Line pre ++ stop :: rest) out =
  Some (out ++ flat_map (Interactive.respond embed norm qe) pre).
Proof.
  intros Hpre Hstop. revert out.
  induction Hpre as [|l pre Hl _ IH]; intros out.
  - simpl. rewrite app_nil_r.
    destruct Hstop as [->|[l [-> Hl]]]; [reflexivity|].
    rewrite Hl. reflexivity.
  - change (S (length (l :: pre) + extra)) with (S (S (length pre + extra))).
    change (map Interactive.Line (l :: pre) ++ stop :: rest)
      with (Interactive.Line l :: (map Interactive.Line pre ++ stop :: rest)).
    rewrite interactive_mode_line by exact Hl.
    rewrite IH. cbn [flat_map]. rewrite app_assoc. reflexivity.
Qed.

End InteractiveFacts.

Lemma interactive_mode_never_ends_witness :
  Interactive.interactive_mode Sample.embed Sample.normalize_L2 100
    Sample.one_row_engine [Interactive.Line "what fox"] [] = None.
Proof.
  apply (interactive_mode_never_ends Sample.embed Sample.normalize_L2
           Sample.one_row_engine 100 [Interactive.Line "what fox"] []).
  constructor; [|constructor].
  exists "what fox"%string. split; reflexivity.
Defined.

Lemma interactive_mode_stops_at_exit_witness :
  Interactive.interactive_mode Sample.embed Sample.normalize_L2
    (S (length ["what fox"; "   "]%string + 0))
    Sample.empty_engine
    (map Interactive.Line ["what fox"; "   "]%string
       ++ Interactive.Line " Quit " :: [Interactive.Line "why"])
    [] =
  Some ([] ++ flat_map
                (Interactive.respond Sample.embed Sample.normalize_L2
                   Sample.empty_engine)
                ["what fox"; "   "]%string).
Proof.
  apply (interactive_mode_stops_at_exit Sample.embed Sample.normalize_L2
           Sample.empty_engine ["what fox"; "   "]%string
           (Interactive.Line " Quit ") [Interactive.Line "why"] [] 0).
  - repeat constructor.
  - right. exists " Quit "%string. split; reflexivity.
Defined.

(** ** More on the collector and the records *)

(** X11: Nesting loses nothing: what is collected from a value is collected
    from every object that has it under a key and from every array that
    has it as an element; and a string of at least 40 characters under a
    key of an object is collected from that object, whatever the key,
    the ['url'] included. *)
Theorem extract_texts_nesting
    (k : string) (v : json) (fields : list (string * json))
    (items : list json) (t : string) :
  (In (k, v) fields -> In t (_extract_texts v) ->
   In t (_extract_texts (JObj fields)))
  /\ (In v items -> In t (_extract_texts v) ->
      In t (_extract_texts (JArr items)))
  /\ (forall s,
        In (k, JStr s) fields -> 40 <= PyStr.len (PyStr.strip s) ->
        In (PyStr.strip s) (_extract_texts (JObj fields))).
Proof.
  split; [|split].
  - intros Hin Ht. simpl. apply in_flat_map. exists (k, v).
    split; [exact Hin|]. destruct v; try exact Ht. destruct Ht.
  - intros Hin Ht. simpl. apply in_flat_map. exists v.
    split; [exact Hin|exact Ht].
  - intros s Hin Hlen. simpl. apply in_flat_map. exists (k, JStr s).
    split; [exact Hin|].
    destruct (Z.leb_spec 40 (PyStr.len (PyStr.strip s))); [|lia].
    left. reflexivity.
Qed.

Lemma extract_texts_nesting_witness :
  In (PyStr.strip Sample.fox)
     (_extract_texts (JObj [("title"%string, JStr "x");
                            ("url"%string, JStr Sample.fox)])).
Proof.
  apply (proj2 (proj2 (extract_texts_nesting "url" JNull
                         [("title"%string, JStr "x");
                          ("url"%string, JStr Sample.fox)] [] EmptyString))
           Sample.fox).
  - right. left. reflexivity.
  - vm_compute. discriminate.
Defined.

(** X12: For one text [process_data] appends its chunks and one record per
    chunk, in order: the chunk ids count from 0, every record has the
    number of chunks of the text as [total_chunks], carries the source
    identifier and stores its chunk. *)
Theorem process_text_records
    (tok : string -> list string) (u : json) (chunk_size : Z)
    (vs : VectorStore.t) (raw_text : string) :
  exists rs,
    VectorStore.metadata (VectorStore.process_text tok u chunk_size vs raw_text) =
      VectorStore.metadata vs ++ rs
    /\ VectorStore.texts (VectorStore.process_text tok u chunk_size vs raw_text) =
       VectorStore.texts vs ++ chunk_text tok raw_text chunk_size 2
    /\ map text rs = chunk_text tok raw_text chunk_size 2
    /\ map chunk_id rs =
       map Z.of_nat (seq 0 (length (chunk_text tok raw_text chunk_size 2)))
    /\ Forall (fun m =>
                 total_chunks m =
                   PyIdx.len (chunk_text tok raw_text chunk_size 2)
                 /\ url m = u) rs.
Proof.
  rewrite process_text_extend. simpl.
  exists (chunk_records u (chunk_text tok raw_text chunk_size 2)).
  split; [reflexivity|]. split; [reflexivity|].
  split; [apply chunk_records_text|]. split.
  - unfold chunk_records, PyIdx.enumerate. rewrite map_map. simpl.
    exact (map_fst_imap Z.of_nat _).
  - unfold chunk_records. apply List.Forall_forall. intros m Hm.
    apply in_map_iff in Hm. destruct Hm as [ic [<- _]]. split; reflexivity.
Qed.

Lemma chunk_text_nil_iff_witness :
  chunk_text Sample.sent_tokenize "   " 5 2 = [].
Proof.
  apply (proj2 (chunk_text_nil_iff Sample.sent_tokenize 5 2 "   ")).
  right. reflexivity.
Defined.

Lemma search_rows_returns_iff_witness :
  returns (QueryEngine.search_rows [Sample.record0]
             [(1%Q, 0); (IndexFlatIP.NEG_FLT_MAX, -1); (0%Q, 7)]) = true.
Proof.
  apply (proj2 (search_rows_returns_iff [Sample.record0]
                  [(1%Q, 0); (IndexFlatIP.NEG_FLT_MAX, -1); (0%Q, 7)])).
  repeat constructor; simpl; unfold PyIdx.len; simpl; lia.
Defined.

Lemma load_after_save_same_path_witness :
  QueryEngine.load_index QueryEngine.init
    (VectorStore.save_index
       {| VectorStore.index := Some Sample.two_rows;
          VectorStore.texts := [Sample.fox; Sample.fox];
          VectorStore.metadata := [Sample.record0; Sample.record0] |}
       ∅ "store" "store")
    "store" "store" =
  (QueryEngine.init, false).
Proof.
  apply (load_after_save_same_path
           {| VectorStore.index := Some Sample.two_rows;
              VectorStore.texts := [Sample.fox; Sample.fox];
              VectorStore.metadata := [Sample.record0; Sample.record0] |}
           ∅ QueryEngine.init "store" Sample.two_rows).
  reflexivity.
Defined.

(** ** Queries over an aligned engine *)

Lemma insert_ranked_Forall (P : Q * Z -> Prop) a l :
  P a -> Forall P l -> Forall P (IndexFlatIP.insert_ranked a l).
Proof.
  intros Ha H. induction H as [|b l Hb Hl IH]; simpl.
  - constructor; [exact Ha|constructor].
  - destruct (IndexFlatIP.ranks_before a b).
    + constructor; [exact Ha|]. constructor; assumption.
    + constructor; assumption.
Qed.

Lemma rank_all_Forall (P : Q * Z -> Prop) l :
  Forall P l -> Forall P (IndexFlatIP.rank_all l).
Proof.
  intros H. unfold IndexFlatIP.rank_all.
  induction H as [|a l Ha _ IH]; simpl; [constructor|].
  apply insert_ranked_Forall; assumption.
Qed.

Lemma insert_ranked_length a l :
  length (IndexFlatIP.insert_ranked a l) = S (length l).
Proof.
  induction l as [|b l IH]; simpl; [reflexivity|].
  destruct (IndexFlatIP.ranks_before a b); simpl; [reflexivity|].
  rewrite IH. reflexivity.
Qed.

Lemma rank_all_length l : length (IndexFlatIP.rank_all l) = length l.
Proof.
  unfold IndexFlatIP.rank_all. induction l as [|a l IH]; simpl; [reflexivity|].
  rewrite insert_ranked_length, IH. reflexivity.
Qed.

Lemma in_imap_snd_index {X A I} (f : X -> A) (g : nat -> I) (l : list X)
    (r : A * I) :
  In r (imap (fun n x => (f x, g n)) l) ->
  exists n, (n < length l)%nat /\ snd r = g n.
Proof.
  revert g. induction l as [|x l IH]; intros g H; simpl in H; [destruct H|].
  destruct H as [<-|H].
  - exists 0%nat. simpl. split; [lia|reflexivity].
  - destruct (IH (g ∘ S) H) as [n [Hn Hg]].
    exists (S n). simpl. split; [lia|exact Hg].
Qed.

(** The index scores its own rows: the row ids are [0 .. ntotal - 1]. *)
Lemma scored_ids i x :
  Forall (fun r : Q * Z => 0 <= snd r < IndexFlatIP.ntotal i)
         (IndexFlatIP.scored i x).
Proof.
  unfold IndexFlatIP.scored, IndexFlatIP.ntotal, PyIdx.len.
  apply List.Forall_forall. intros r H.
  apply in_imap_snd_index in H. destruct H as [n [Hn ->]]. lia.
Qed.

Lemma scored_length i x :
  length (IndexFlatIP.scored i x) = length (IndexFlatIP.xb i).
Proof. unfold IndexFlatIP.scored. apply length_imap. Qed.

(** What the index returns: [k] rows, each a stored row or a filler
    with row id [-1]; only stored rows when [k <= ntotal]. *)
Lemma index_search_rows i x k :
  PyIdx.len x = IndexFlatIP.d i ->
  0 < k ->
  exists raw,
    IndexFlatIP.search i x k = Return raw
    /\ length raw = Z.to_nat k
    /\ Forall (fun r : Q * Z => -1 <= snd r < IndexFlatIP.ntotal i) raw
    /\ (k <= IndexFlatIP.ntotal i ->
        Forall (fun r : Q * Z => 0 <= snd r < IndexFlatIP.ntotal i) raw).
Proof.
  intros Hd Hk. unfold IndexFlatIP.search.
  destruct (Z.eqb_spec (PyIdx.len x) (IndexFlatIP.d i)) as [_|]; [|congruence].
  destruct (Z.gtb_spec k 0) as [_|]; [|lia]. cbn [negb].
  set (all := IndexFlatIP.rank_all (IndexFlatIP.scored i x)).
  assert (Hall : Forall (fun r : Q * Z => 0 <= snd r < IndexFlatIP.ntotal i) all)
    by (apply rank_all_Forall, scored_ids).
  assert (Hlen : length all = length (IndexFlatIP.xb i))
    by (unfold all; rewrite rank_all_length; apply scored_length).
  eexists. split; [reflexivity|].
  split; [|split].
  - rewrite length_app, length_replicate, length_take. lia.
  - apply Forall_app. split.
    + apply Forall_take. eapply Forall_impl; [exact Hall|].
      intros r Hr. simpl in Hr. lia.
    + apply Forall_replicate. simpl.
      pose proof (Nat2Z.is_nonneg (length (IndexFlatIP.xb i))).
      unfold IndexFlatIP.ntotal, PyIdx.len. lia.
  - intros Hle. unfold IndexFlatIP.ntotal, PyIdx.len in Hle.
    replace (Z.to_nat k - length (take (Z.to_nat k) all))%nat with 0%nat
      by (rewrite length_take; lia).
    simpl. rewrite app_nil_r. apply Forall_take. exact Hall.
Qed.

Section AlignedSearch.

Variable embed : string -> list Q.
Variable norm : list Q -> list Q.

(** X27: Over an aligned engine, a query of the index's dimension with
    [0 < top_k <= ntotal] returns [top_k] results that all come from
    stored rows: each holds the record at the row id the index
    returned. *)
Theorem search_within_ntotal
    (qe : QueryEngine.t) (i : IndexFlatIP.t) (query : string) (top_k : Z) :
  QueryEngine.index qe = Some i ->
  engine_aligned qe ->
  PyIdx.len (norm (embed query)) = IndexFlatIP.d i ->
  0 < top_k <= IndexFlatIP.ntotal i ->
  exists raw rs,
    IndexFlatIP.search i (norm (embed query)) top_k = Return raw
    /\ QueryEngine.search embed norm qe query top_k = Return rs
    /\ map QueryEngine.rank rs = ranks (Z.to_nat top_k)
    /\ map QueryEngine.score rs = map fst raw
    /\ Forall2 (fun r row =>
                  0 <= snd row < IndexFlatIP.ntotal i
                  /\ QueryEngine.metadata qe !! Z.to_nat (snd row) =
                     Some (QueryEngine.result_metadata r))
               rs raw.
Proof.
  intros Hi Hal Hd [Hk Hle]. unfold QueryEngine.search. rewrite Hi.
  destruct (index_search_rows i (norm (embed query)) top_k Hd Hk)
    as [raw [Hs [Hlen [_ Hids]]]].
  specialize (Hids Hle).
  rewrite Hs. cbn [mbind result_bind].
  unfold engine_aligned in Hal. rewrite Hi in Hal. simpl in Hal.
  set (md := QueryEngine.metadata qe) in *. rewrite <- Hal in Hids.
  destruct (omap_result_in_range md (ranked_rows raw)) as [Hr [Hsc Hm]].
  { apply (Forall_ranked_rows (fun r : Q * Z => 0 <= snd r < PyIdx.len md)).
    exact Hids. }
  rewrite ranked_rows_fst in Hr. rewrite ranked_rows_snd in Hsc, Hm.
  exists raw, (omap (result_wrapped md) (ranked_rows raw)).
  split; [reflexivity|].
  split; [apply search_rows_of_test, rows_test_in_range; exact Hids|].
  split; [rewrite <- Hlen; exact Hr|]. split; [exact Hsc|].
  rewrite Hal in Hids. clear Hr Hsc Hs Hlen.
  induction Hm as [|r row rs raw Hrow _ IH]; [constructor|].
  inversion Hids as [|? ? Hrange Hrest]; subst.
  constructor; [split; [exact Hrange|exact Hrow]|exact (IH Hrest)].
Qed.

End AlignedSearch.

Lemma search_within_ntotal_witness :
  exists raw rs,
    IndexFlatIP.search Sample.two_rows
      (Sample.normalize_L2 (Sample.embed "ab")) 2 = Return raw
    /\ QueryEngine.search Sample.embed Sample.normalize_L2
         {| QueryEngine.index := Some Sample.two_rows;
            QueryEngine.metadata := [Sample.record0; Sample.record0] |}
         "ab" 2 = Return rs
    /\ map QueryEngine.rank rs = ranks (Z.to_nat 2)
    /\ map QueryEngine.score rs = map fst raw
    /\ Forall2 (fun r row =>
                  0 <= snd row < IndexFlatIP.ntotal Sample.two_rows
                  /\ [Sample.record0; Sample.record0] !! Z.to_nat (snd row) =
                     Some (QueryEngine.result_metadata r))
               rs raw.
Proof.
  apply (search_within_ntotal Sample.embed Sample.normalize_L2
           {| QueryEngine.index := Some Sample.two_rows;
              QueryEngine.metadata := [Sample.record0; Sample.record0] |}
           Sample.two_rows "ab" 2).
  - reflexivity.
  - reflexivity.
  - reflexivity.
  - split; [reflexivity|]. vm_compute. discriminate.
Defined.
